(** * react-voice-visualizer: the [VoiceVisualizer] component

    A shallow embedding of [src/components/VoiceVisualizer.tsx] and of the
    helpers it calls, followed by the properties of the waveform engine
    that the specification states.

    Conventions.
    - A JavaScript [number] that the code truncates or rounds itself
      ([barWidth], [gap], [speed], [devicePixelRatio], times, amplitudes)
      is a rational [Q]; a number that is integral by construction
      ([clientWidth], [innerWidth], the results of [Math.trunc] and
      [Math.round]) is a [Z].
    - Where the code multiplies, divides or subtracts such numbers before
      it truncates, rounds or hands them on (the geometry recompute, the
      seek by click), the operation is the binary64 one of module
      [Double]: the exact result rounded to the nearest double.  The
      position of the progress indicator is kept exact; only bounds are
      stated of it.
    - [useState] cells and [useRef] cells of the component are the fields
      of one record [State]; a handler is a function from the state it
      closes over to the state after it, together with the list of calls
      it makes to code outside the component, in program order.
    - The helpers imported from [../helpers] and [../hooks] are not part
      of the component file.  Calls to them are recorded in the effect
      list; where a property is about what a helper computes, the helper
      is modelled from the specification and marked as such. *)

From Stdlib Require Import ZArith QArith Qround Qabs Qminmax Qpower Lqa.
From Stdlib Require Import Ascii String List Bool Lia Permutation.
Import ListNotations.

Local Open Scope Z_scope.

(** ** JavaScript [Math] functions used by the component *)

Module Math.

(** [Math.trunc x]: the integer part of [x], fractional digits removed
    (rounding toward zero). *)
Definition trunc (x : Q) : Z := Z.quot (Qnum x) (Z.pos (Qden x)).

(** [Math.round x]: the nearest integer, a tie going to the larger one. *)
Definition round (x : Q) : Z := Qfloor (x + (1 # 2)).

End Math.

(** ** Double-precision arithmetic *)

Module Double.

(** The exponent of the smallest positive double, [2 ^ -1074]. *)
Definition emin : Z := -1074.

(** [floor (log2 x)], for [x > 0]. *)
Definition ilog2 (x : Q) : Z :=
  let e := Z.log2 (Qnum x) - Z.log2 (Z.pos (Qden x)) in
  if Qle_bool (2 ^ e) x then e else e - 1.

(** The nearest integer, a tie going to the even one. *)
Definition roundHalfEven (x : Q) : Z :=
  let f := Qfloor x in
  match (x - inject_Z f ?= 1 # 2)%Q with
  | Lt => f
  | Gt => f + 1
  | Eq => if Z.even f then f else f + 1
  end.

(** The double nearest to [x] (round to nearest, ties to even): a
    multiple [m * 2 ^ e] with [m] of at most 53 bits and [e >= emin].
    Numbers beyond the largest finite double, which no size or time in
    the component reaches, are rounded in the same way and not sent to
    [Infinity]. *)
Definition nearest (x : Q) : Q :=
  if Qeq_bool x 0 then 0%Q
  else
    let e := Z.max (ilog2 (Qabs x) - 52) emin in
    let m := roundHalfEven (Qabs x / 2 ^ e) in
    let r := Qred (inject_Z m * 2 ^ e) in
    if Qle_bool 0 x then r else (- r)%Q.

(** [x * y], [x / y] and [x - y] of two doubles. *)
Definition mul (x y : Q) : Q := nearest (x * y).

Definition div (x y : Q) : Q := nearest (x / y).

Definition sub (x y : Q) : Q := nearest (x - y).

End Double.

Arguments Double.nearest : simpl never.

(** ** Data shared by the component and its helpers *)

(** Modelled from the spec: the type [BarsData] of [../types/types.ts],
    which is not in the component file.  Section 3, bar descriptor: one
    column of the waveform, both amplitudes already in pixels. *)
Record BarsData : Type := mkBar {
  amplitudeAboveAxis : Q;
  amplitudeBelowAxis : Q
}.

(** ** Bar Extractor ([getBarsData], imported from [../helpers]) *)

Module BarExtractor.

(** The job record handed to [run] (lines 296-302).  The caller fills
    every field with an integer: [canvasCurrentHeight], [canvasWidth],
    [formattedBarWidth], [formattedGap]. *)
Record GetBarsDataParams : Type := mkParams {
  bufferData : list Q;
  height : Z;
  width : Z;
  barWidth : Z;
  gap : Z
}.

(** Modelled from the spec: the bar pitch inside [getBarsData],
    [unit = barWidth + gap * barWidth]. *)
Definition unit (p : GetBarsDataParams) : Z := barWidth p + gap p * barWidth p.

(** Modelled from the spec: the number of bars [getBarsData] produces,
    [floor (targetPixelWidth / unit)].  For a pitch of zero, where the
    specification is silent, the quotient is 0. *)
Definition barCount (p : GetBarsDataParams) : nat := Z.to_nat (width p / unit p).

(** Modelled from the spec: the partition inside [getBarsData].  Chunk
    [i] of [n] of a buffer of [len] samples starts at sample
    [floor (i * len / n)]: consecutive chunks are contiguous, cover the
    buffer and differ in length by at most one. *)
Definition chunkStart (len n i : nat) : nat := (i * len / n)%nat.

(** Modelled from the spec: chunk [i] of the partition into [n]. *)
Definition chunk (samples : list Q) (n i : nat) : list Q :=
  let len := List.length samples in
  firstn (chunkStart len n (S i) - chunkStart len n i)
         (skipn (chunkStart len n i) samples).

(** Modelled from the spec: the peak of a chunk inside [getBarsData],
    the largest absolute value, 0 for an empty chunk. *)
Definition peak (c : list Q) : Q :=
  fold_right (fun s m => Qmax (Qabs s) m) 0%Q c.

(** Modelled from the spec: the scaling inside [getBarsData], amplitude
    1 maps to [targetPixelHeight / 2] pixels. *)
Definition scale (h : Z) (a : Q) : Q := (a * (inject_Z h / 2))%Q.

(** Modelled from the spec: the bar [getBarsData] emits for a chunk,
    the same scaled peak above and below the axis. *)
Definition bar (h : Z) (c : list Q) : BarsData :=
  let scaledPeak := scale h (peak c) in
  {| amplitudeAboveAxis := scaledPeak; amplitudeBelowAxis := scaledPeak |}.

(** Modelled from the spec: [getBarsData] of [../helpers], which is not
    in the component file.  Section 4.1: the bar sequence has
    [floor (targetPixelWidth / unit)] bars; the buffer is partitioned
    into that many contiguous chunks of equal length (+-1); each bar is
    the peak (maximum absolute value) of its chunk scaled so that 1.0 is
    [targetPixelHeight / 2], above and below the axis alike.  Edge cases:
    an empty buffer gives the empty sequence, a width of 0 gives the
    empty sequence, a chunk of size 0 gives a bar of amplitude 0. *)
Definition getBarsData (p : GetBarsDataParams) : list BarsData :=
  match bufferData p with
  | [] => []
  | _ :: _ =>
      map (fun i => bar (height p) (chunk (bufferData p) (barCount p) i))
          (seq 0 (barCount p))
  end.

(** Equality of job parameters is decidable; two jobs match when every
    parameter agrees. *)
Definition Q_eq_dec (x y : Q) : {x = y} + {x <> y}.
Proof. decide equality; [apply Pos.eq_dec | apply Z.eq_dec]. Defined.

Definition GetBarsDataParams_eq_dec (p q : GetBarsDataParams) : {p = q} + {p <> q}.
Proof.
  decide equality; try apply Z.eq_dec.
  apply (list_eq_dec Q_eq_dec).
Defined.

End BarExtractor.

(** ** Offload Coordinator ([useWebWorker], imported from [../hooks]) *)

Module OffloadCoordinator.

Import BarExtractor.

(** Modelled from the spec: what happens to the coordinator that
    [useWebWorker] returns.  The component submits a job with [run], or
    the worker reports that a job it was given has finished. *)
Inductive Event : Type :=
| run (job : GetBarsDataParams)
| messageReceived (job : GetBarsDataParams).

(** Modelled from the spec: the state of [useWebWorker].  [result] is
    the hook's result cell ([barsData] in the component); [delivered]
    lists the results handed to [onMessageReceived], oldest first;
    [latest] is the job submitted last. *)
Record Coordinator : Type := mkCoordinator {
  latest : option GetBarsDataParams;
  result : list BarsData;
  delivered : list (list BarsData)
}.

(** Line 170: [initialValue: []]. *)
Definition initial : Coordinator :=
  {| latest := None; result := []; delivered := [] |}.

(** Modelled from the spec: the supersession test of [useWebWorker],
    whether a finished job is the most recently submitted one. *)
Definition matchesLatest (c : Coordinator) (job : GetBarsDataParams) : bool :=
  match latest c with
  | Some l => if GetBarsDataParams_eq_dec l job then true else false
  | None => false
  end.

(** Modelled from the spec: [useWebWorker] of [../hooks], which is not in
    the component file.  Section 4.2, single-flight with supersession: a
    submitted job replaces the one before it; when a result arrives it is
    delivered to the completion callback only if it matches the most
    recently submitted job parameters, and is discarded otherwise.  The
    result of a job is [fn job], with [fn] the Bar Extractor (line 169). *)
Definition step (c : Coordinator) (e : Event) : Coordinator :=
  match e with
  | run job =>
      {| latest := Some job; result := result c; delivered := delivered c |}
  | messageReceived job =>
      if matchesLatest c job
      then {| latest := latest c;
              result := getBarsData job;
              delivered := delivered c ++ [getBarsData job] |}
      else c
  end.

(** Modelled from the spec: the coordinator after a sequence of events. *)
Definition steps (c : Coordinator) (es : list Event) : Coordinator :=
  fold_left step es c.

End OffloadCoordinator.

(** ** Blob Renderer ([drawByBlob], imported from [../helpers]) *)

Module BlobRenderer.

(** Arguments of the call of lines 329-340; [canvasWidth] stands for the
    canvas element, of which the renderer needs the total width. *)
Record DrawByBlobParams : Type := mkDrawByBlobParams {
  barsData : list BarsData;
  canvasWidth : Z;
  barWidth : Z;
  gap : Z;
  backgroundColor : string;
  mainBarColor : string;
  secondaryBarColor : string;
  currentAudioTime : Q;
  rounded : Q;
  duration : Q
}.

(** Modelled from the spec: what [drawByBlob] paints for one bar. *)
Record PaintedBar : Type := mkPaintedBar {
  leftEdge : Z;
  fillStyle : string;
  above : Q;
  below : Q
}.

(** Modelled from the spec: the bar pitch inside [drawByBlob]. *)
Definition unit (a : DrawByBlobParams) : Z := barWidth a + gap a * barWidth a.

(** Modelled from the spec: the time that the left edge of bar [i]
    stands for inside [drawByBlob], [(i * unit) / totalWidth * duration]. *)
Definition barTime (a : DrawByBlobParams) (i : nat) : Q :=
  (inject_Z (Z.of_nat i * unit a) / inject_Z (canvasWidth a) * duration a)%Q.

(** Modelled from the spec: the colour [drawByBlob] gives bar [i],
    played at or left of the playhead, unplayed right of it. *)
Definition barColor (a : DrawByBlobParams) (i : nat) : string :=
  if Qle_bool (barTime a i) (currentAudioTime a)
  then mainBarColor a
  else secondaryBarColor a.

(** Modelled from the spec: bar [i] as [drawByBlob] paints it. *)
Definition paintBar (a : DrawByBlobParams) (i : nat) (b : BarsData) : PaintedBar :=
  {| leftEdge := Z.of_nat i * unit a;
     fillStyle := barColor a i;
     above := amplitudeAboveAxis b;
     below := amplitudeBelowAxis b |}.

(** Modelled from the spec: the loop of [drawByBlob] over the bars,
    from index [i] on. *)
Fixpoint paintFrom (a : DrawByBlobParams) (i : nat) (bars : list BarsData)
  : list PaintedBar :=
  match bars with
  | [] => []
  | b :: rest => paintBar a i b :: paintFrom a (S i) rest
  end.

(** Modelled from the spec: [drawByBlob] of [../helpers], which is not in
    the component file.  Section 4.5: the whole bar sequence is painted
    once; bar [i] has its left edge at pixel [i * unit] and is filled
    with [mainBarColor] if [(i * unit) / totalWidth * duration <=
    playheadTime], with [secondaryBarColor] otherwise; an empty sequence
    or a surface of zero width paints no bar. *)
Definition drawByBlob (a : DrawByBlobParams) : list PaintedBar :=
  if canvasWidth a =? 0 then [] else paintFrom a 0 (barsData a).

End BlobRenderer.

(** ** Live-Stream Renderer ([drawByLiveStream], imported from [../helpers]) *)

Module LiveStreamRenderer.

(** Arguments of the call of lines 231-247.  [index], [index2] and
    [picks] are the cells the renderer mutates in place; the record holds
    their contents at the time of the call. *)
Record DrawByLiveStreamParams : Type := mkDrawByLiveStreamParams {
  audioData : list Z;
  unit : Z;
  index : Z;
  index2 : Z;
  picks : list (option BarsData);
  isRecordingInProgress : bool;
  isPausedRecording : bool;
  backgroundColor : string;
  mainBarColor : string;
  secondaryBarColor : string;
  barWidth : Z;
  rounded : Q;
  animateCurrentPick : bool;
  fullscreen : bool
}.

(** What a call leaves in the three cells it mutates. *)
Record Cells : Type := mkCells {
  picks' : list (option BarsData);
  index' : Z;
  index2' : Z
}.

End LiveStreamRenderer.

(** ** The component *)

Module VoiceVisualizer.

(** The fields of [controls] that the engine reads (lines 78-105). *)
Record Controls : Type := mkControls {
  audioData : list Z;
  isRecordingInProgress : bool;
  duration : Q;
  currentAudioTime : Q;
  audioSrc : string;
  bufferFromRecordedBlob : option (list Q);
  isAvailableRecordedAudio : bool;
  isPausedRecording : bool;
  isProcessingRecordedAudio : bool;
  isCleared : bool;
  isProcessingOnResize : bool
}.

(** The props that reach the engine (lines 106-119), defaults applied. *)
Record Props : Type := mkProps {
  speed : Q;
  backgroundColor : string;
  mainBarColor : string;
  secondaryBarColor : string;
  barWidth : Q;
  gap : Q;
  rounded : Q;
  fullscreen : bool;
  animateCurrentPick : bool;
  onlyRecording : bool
}.

Record HTMLDivElement : Type := mkDiv {
  clientWidth : Z;
  clientHeight : Z
}.

Record HTMLAudioElement : Type := mkAudio {
  src : string;
  currentTime : Q
}.

(** A ref object: [current] is [None] while no element is attached. *)
Record MutableRefObject (A : Type) : Type := mkRef {
  current : option A
}.
Arguments mkRef {A} _.
Arguments current {A} _.

(** What the component reads from the browser: [window], [navigator]
    and the targets of its own element refs.  [isSafari] is the outcome
    of the user-agent test of line 177, [hasResizeObserver] that of
    [typeof ResizeObserver !== "undefined"], and [canvasRef] tells whether
    the canvas element is attached. *)
Record Dom : Type := mkDom {
  innerWidth : Z;
  devicePixelRatio : Q;
  isSafari : bool;
  hasResizeObserver : bool;
  canvasContainerRef : option HTMLDivElement;
  canvasRef : bool
}.

(** [useState] and [useRef] cells (lines 145-166). *)
Record State : Type := mkState {
  canvasCurrentWidth : Z;
  canvasCurrentHeight : Z;
  canvasWidth : Z;
  screenWidth : Z;
  isResizing : bool;
  picksRef : list (option BarsData);
  indexSpeedRef : Z;
  indexRef : Z;
  index2Ref : Z
}.

Definition setScreenWidth (v : Z) (st : State) : State :=
  {| canvasCurrentWidth := canvasCurrentWidth st;
     canvasCurrentHeight := canvasCurrentHeight st;
     canvasWidth := canvasWidth st;
     screenWidth := v;
     isResizing := isResizing st;
     picksRef := picksRef st;
     indexSpeedRef := indexSpeedRef st;
     indexRef := indexRef st;
     index2Ref := index2Ref st |}.

Definition setIsResizing (v : bool) (st : State) : State :=
  {| canvasCurrentWidth := canvasCurrentWidth st;
     canvasCurrentHeight := canvasCurrentHeight st;
     canvasWidth := canvasWidth st;
     screenWidth := screenWidth st;
     isResizing := v;
     picksRef := picksRef st;
     indexSpeedRef := indexSpeedRef st;
     indexRef := indexRef st;
     index2Ref := index2Ref st |}.

Definition setIndexSpeedRef (v : Z) (st : State) : State :=
  {| canvasCurrentWidth := canvasCurrentWidth st;
     canvasCurrentHeight := canvasCurrentHeight st;
     canvasWidth := canvasWidth st;
     screenWidth := screenWidth st;
     isResizing := isResizing st;
     picksRef := picksRef st;
     indexSpeedRef := v;
     indexRef := indexRef st;
     index2Ref := index2Ref st |}.

Definition setPicksRef (v : list (option BarsData)) (st : State) : State :=
  {| canvasCurrentWidth := canvasCurrentWidth st;
     canvasCurrentHeight := canvasCurrentHeight st;
     canvasWidth := canvasWidth st;
     screenWidth := screenWidth st;
     isResizing := isResizing st;
     picksRef := v;
     indexSpeedRef := indexSpeedRef st;
     indexRef := indexRef st;
     index2Ref := index2Ref st |}.

Definition setCells (cells : LiveStreamRenderer.Cells) (st : State) : State :=
  {| canvasCurrentWidth := canvasCurrentWidth st;
     canvasCurrentHeight := canvasCurrentHeight st;
     canvasWidth := canvasWidth st;
     screenWidth := screenWidth st;
     isResizing := isResizing st;
     picksRef := LiveStreamRenderer.picks' cells;
     indexSpeedRef := indexSpeedRef st;
     indexRef := LiveStreamRenderer.index' cells;
     index2Ref := LiveStreamRenderer.index2' cells |}.

(** The three functions a resize subscription can be given. *)
Inductive Handler : Type :=
| handleResizeSafari
| resizeObserverCallback
| handleResizeWindow.

(** Calls that leave the component, as the handlers make them. *)
Inductive Effect : Type :=
| call_drawByLiveStream (a : LiveStreamRenderer.DrawByLiveStreamParams)
| call_drawByBlob (a : BlobRenderer.DrawByBlobParams)
| call_run (job : BarExtractor.GetBarsDataParams)
| call_initialCanvasSetup (background : string)
| call_clearCanvas
| call_setBarsData (bars : list BarsData)
| call_setIsProcessingOnResize (b : bool)
| call_setIsProcessingAudioOnComplete (b : bool)
| call_debouncedOnResize
| call_setTimeout_onResize (ms : Z)
| call_window_addEventListener_resize (h : Handler)
| call_ResizeObserver_observe (h : Handler).

(** *** Derived configuration (lines 153-159) *)

Definition isMobile (st : State) : bool := screenWidth st <? 768.

Definition formattedSpeed (p : Props) : Z := Math.trunc (speed p).

Definition formattedGap (p : Props) : Z := Math.trunc (gap p).

Definition formattedBarWidth (p : Props) (st : State) : Z :=
  Math.trunc
    (if isMobile st && (0 <? formattedGap p)
     then (barWidth p + 1)%Q
     else barWidth p).

Definition unit (p : Props) (st : State) : Z :=
  formattedBarWidth p st + formattedGap p * formattedBarWidth p st.

(** Lines 145-166: the cells at the first render. *)
Definition initialState (dom : Dom) (p : Props) : State :=
  let st0 :=
    {| canvasCurrentWidth := 0;
       canvasCurrentHeight := 0;
       canvasWidth := 0;
       screenWidth := innerWidth dom;
       isResizing := false;
       picksRef := [];
       indexSpeedRef := formattedSpeed p;
       indexRef := 0;
       index2Ref := 0 |} in
  {| canvasCurrentWidth := 0;
     canvasCurrentHeight := 0;
     canvasWidth := 0;
     screenWidth := innerWidth dom;
     isResizing := false;
     picksRef := [];
     indexSpeedRef := formattedSpeed p;
     indexRef := formattedBarWidth p st0;
     index2Ref := formattedBarWidth p st0 |}.

(** *** Geometry recompute (lines 360-379) *)

(** [n * window.devicePixelRatio] as the code computes it: the double
    product of the integer [n] and the ratio. *)
Definition devicePixels (dom : Dom) (n : Z) : Q :=
  Double.mul (Double.nearest (inject_Z n))
             (Double.nearest (devicePixelRatio dom)).

(** Lines 365-368.  Halving a double is exact, short of an underflow
    below [2 ^ -1074], where the quotient truncates to 0 either way. *)
Definition roundedHeight (dom : Dom) (container : HTMLDivElement) : Z :=
  Math.trunc (devicePixels dom (clientHeight container) / 2) * 2.

Definition onResize (dom : Dom) (p : Props) (st : State) : State :=
  match canvasContainerRef dom, canvasRef dom with
  | Some container, true =>
      {| canvasCurrentWidth := clientWidth container;
         canvasCurrentHeight := roundedHeight dom container;
         canvasWidth :=
           Math.round (devicePixels dom (clientWidth container));
         screenWidth := screenWidth st;
         isResizing := false;
         picksRef := picksRef st;
         indexSpeedRef := formattedSpeed p;
         indexRef := indexRef st;
         index2Ref := index2Ref st |}
  | _, _ => st
  end.

(** *** Resize subscription (lines 181-225) *)

(** Lines 183-188. *)
Definition handleResize_Safari (dom : Dom) (st : State) : State * list Effect :=
  (setIsResizing true (setScreenWidth (innerWidth dom) st),
   [call_setIsProcessingOnResize true; call_debouncedOnResize]).

(** Lines 198-207, and the same body again at lines 211-220. *)
Definition handleResize (dom : Dom) (c : Controls) (p : Props) (st : State)
  : State * list Effect :=
  let st1 := setScreenWidth (innerWidth dom) st in
  if isAvailableRecordedAudio c
  then (setIsResizing true st1,
        [call_setIsProcessingOnResize true; call_debouncedOnResize])
  else (onResize dom p st1, []).

Definition handlerBody (h : Handler) (dom : Dom) (c : Controls) (p : Props)
  (st : State) : State * list Effect :=
  match h with
  | handleResizeSafari => handleResize_Safari dom st
  | resizeObserverCallback => handleResize dom c p st
  | handleResizeWindow => handleResize dom c p st
  end.

(** The body of the effect of lines 181-225, run on mount. *)
Definition resizeEffect (dom : Dom) (p : Props) (st : State)
  : State * list Effect :=
  if isSafari dom then
    (onResize dom p st,
     [call_window_addEventListener_resize handleResizeSafari;
      call_setTimeout_onResize 100;
      call_setTimeout_onResize 500;
      call_setTimeout_onResize 1000])
  else if hasResizeObserver dom
          && match canvasContainerRef dom with Some _ => true | None => false end
  then (st, [call_ResizeObserver_observe resizeObserverCallback])
  else
    (onResize dom p st,
     [call_window_addEventListener_resize handleResizeWindow]).

(** *** Live waveform (lines 227-260) *)

Section LiveStream.

(** [drawByLiveStream] is not in the component file.  It paints the
    canvas and updates, in place, the pick buffer and the two cursors it
    is handed; [drawByLiveStream a] stands for what a call with arguments
    [a] leaves in those three cells.  Painting and committing a pick both
    happen inside the call, which the effect list records. *)
Variable drawByLiveStream :
  LiveStreamRenderer.DrawByLiveStreamParams -> LiveStreamRenderer.Cells.

Definition liveStreamArgs (c : Controls) (p : Props) (st : State)
  : LiveStreamRenderer.DrawByLiveStreamParams :=
  {| LiveStreamRenderer.audioData := audioData c;
     LiveStreamRenderer.unit := unit p st;
     LiveStreamRenderer.index := indexRef st;
     LiveStreamRenderer.index2 := index2Ref st;
     LiveStreamRenderer.picks := picksRef st;
     LiveStreamRenderer.isRecordingInProgress := isRecordingInProgress c;
     LiveStreamRenderer.isPausedRecording := isPausedRecording c;
     LiveStreamRenderer.backgroundColor := backgroundColor p;
     LiveStreamRenderer.mainBarColor := mainBarColor p;
     LiveStreamRenderer.secondaryBarColor := secondaryBarColor p;
     LiveStreamRenderer.barWidth := formattedBarWidth p st;
     LiveStreamRenderer.rounded := rounded p;
     LiveStreamRenderer.animateCurrentPick := animateCurrentPick p;
     LiveStreamRenderer.fullscreen := fullscreen p |}.

(** The test of line 229. *)
Definition commitDue (c : Controls) (p : Props) (st : State) : bool :=
  (formattedSpeed p <=? indexSpeedRef st)
  || (List.length (audioData c) =? 0)%nat.

(** The body of the layout effect, run for one update of the feed. *)
Definition liveStreamEffect (dom : Dom) (c : Controls) (p : Props) (st : State)
  : State * list Effect :=
  if negb (canvasRef dom) then (st, [])
  else
    let '(st1, calls) :=
      if commitDue c p st then
        let st0 :=
          setIndexSpeedRef
            (if (List.length (audioData c) =? 0)%nat
             then formattedSpeed p else 0) st in
        let args := liveStreamArgs c p st0 in
        (setCells (drawByLiveStream args) st0, [call_drawByLiveStream args])
      else (st, []) in
    (setIndexSpeedRef (indexSpeedRef st1 + 1) st1, calls).

End LiveStream.

(** *** Recorded waveform (lines 278-358) *)

(** The body of the effect of lines 278-313.  The hover listener it also
    installs plays no part in drawing and is left out. *)
Definition extractionEffect (dom : Dom) (c : Controls) (p : Props) (st : State)
  : State * list Effect :=
  match bufferFromRecordedBlob c with
  | None => (st, [])
  | Some channelData =>
      if negb (canvasRef dom) || isRecordingInProgress c || isResizing st
      then (st, [])
      else if onlyRecording p then (st, [call_clearCanvas])
      else
        (setPicksRef [] st,
         [call_run
            {| BarExtractor.bufferData := channelData;
               BarExtractor.height := canvasCurrentHeight st;
               BarExtractor.width := canvasWidth st;
               BarExtractor.barWidth := formattedBarWidth p st;
               BarExtractor.gap := formattedGap p |}])
  end.

(** The body of the effect of lines 315-349; [barsData] is the result
    cell of the worker hook. *)
Definition blobEffect (dom : Dom) (c : Controls) (p : Props) (st : State)
  (barsData : list BarsData) : list Effect :=
  if onlyRecording p
     || (List.length barsData =? 0)%nat
     || negb (canvasRef dom)
     || isProcessingRecordedAudio c
  then []
  else if isCleared c then [call_setBarsData []]
  else
    [call_drawByBlob
       {| BlobRenderer.barsData := barsData;
          BlobRenderer.canvasWidth := canvasWidth st;
          BlobRenderer.barWidth := formattedBarWidth p st;
          BlobRenderer.gap := formattedGap p;
          BlobRenderer.backgroundColor := backgroundColor p;
          BlobRenderer.mainBarColor := mainBarColor p;
          BlobRenderer.secondaryBarColor := secondaryBarColor p;
          BlobRenderer.currentAudioTime := currentAudioTime c;
          BlobRenderer.rounded := rounded p;
          BlobRenderer.duration := duration c |}].

(** *** Completion of an extraction (lines 143, 381-387) *)

(** Line 143: the forwarded ref if there is one, else [controls.audioRef]. *)
Definition audioElementRef
  (ref controlsAudioRef : option (MutableRefObject HTMLAudioElement))
  : option (MutableRefObject HTMLAudioElement) :=
  match ref with
  | Some r => Some r
  | None => controlsAudioRef
  end.

(** The audio element behind the ref after the callback has run, and the
    calls the callback makes.  [isProcessingOnResize] is the value the
    callback closed over, not the one its own first call asks for. *)
Definition completedAudioProcessing (c : Controls)
  (audio : option (MutableRefObject HTMLAudioElement))
  : option (MutableRefObject HTMLAudioElement) * list Effect :=
  let calls :=
    [call_setIsProcessingOnResize false;
     call_setIsProcessingAudioOnComplete false] in
  match audio with
  | Some {| current := Some element |} =>
      if negb (isProcessingOnResize c)
      then (Some {| current :=
                      Some {| src := audioSrc c;
                              currentTime := currentTime element |} |},
            calls)
      else (audio, calls)
  | _ => (audio, calls)
  end.

(** *** From a resize to the next extraction *)

(** The cells together with the one timer of the debounced [onResize]. *)
Record Pipeline : Type := mkPipeline {
  cells : State;
  debouncePending : bool
}.

(** A notification reaches the installed handler, the debounce window
    closes, or one of the timers of lines 191-193 expires; each carries
    the browser state at that moment. *)
Inductive Event : Type :=
| resizeNotified (dom : Dom)
| debounceElapsed (dom : Dom)
| timeoutElapsed (dom : Dom).

Definition isDebouncedCall (e : Effect) : bool :=
  match e with
  | call_debouncedOnResize => true
  | _ => false
  end.

(** Modelled from the spec: [useDebounce] of [../hooks], which is not in
    the component file.  Section 4.3: extraction is scheduled after a
    debounce window that coalesces a burst of resize notifications: a
    call of the debounced function (re)starts the one pending timer, and
    the function runs once when the window closes. *)
Definition schedule (calls : list Effect) (pending : bool) : bool :=
  existsb isDebouncedCall calls || pending.

(** The dependencies of the extraction effect that live in the cells
    (line 313); the others are props and controls. *)
Definition extractionDepsChanged (before after : State) : bool :=
  negb ((canvasCurrentWidth before =? canvasCurrentWidth after)
        && (canvasCurrentHeight before =? canvasCurrentHeight after)
        && Bool.eqb (isResizing before) (isResizing after)).

(** After a handler has run the component renders again, and the
    extraction effect runs if one of its dependencies changed. *)
Definition commit (dom : Dom) (c : Controls) (p : Props)
  (before after : State) (calls : list Effect) : State * list Effect :=
  if extractionDepsChanged before after
  then let '(st, more) := extractionEffect dom c p after in (st, calls ++ more)
  else (after, calls).

Definition step (h : Handler) (c : Controls) (p : Props)
  (s : Pipeline) (e : Event) : Pipeline * list Effect :=
  match e with
  | resizeNotified dom =>
      let '(st1, calls) := handlerBody h dom c p (cells s) in
      let '(st2, out) := commit dom c p (cells s) st1 calls in
      ({| cells := st2;
          debouncePending := schedule calls (debouncePending s) |}, out)
  | debounceElapsed dom =>
      if debouncePending s then
        let '(st2, out) :=
          commit dom c p (cells s) (onResize dom p (cells s)) [] in
        ({| cells := st2; debouncePending := false |}, out)
      else (s, [])
  | timeoutElapsed dom =>
      let '(st2, out) :=
        commit dom c p (cells s) (onResize dom p (cells s)) [] in
      ({| cells := st2; debouncePending := debouncePending s |}, out)
  end.

Fixpoint steps (h : Handler) (c : Controls) (p : Props)
  (s : Pipeline) (es : list Event) : Pipeline * list Effect :=
  match es with
  | [] => (s, [])
  | e :: rest =>
      let '(s1, out1) := step h c p s e in
      let '(s2, out2) := steps h c p s1 rest in
      (s2, out1 ++ out2)
  end.

Definition isRunCall (e : Effect) : bool :=
  match e with
  | call_run _ => true
  | _ => false
  end.

Definition extractions (trace : list Effect) : list Effect :=
  filter isRunCall trace.

(** *** The user-agent test (line 177) *)

(** A JavaScript string is a sequence of UTF-16 code units. *)
Definition codeUnits (s : string) : list Z :=
  map (fun a => Z.of_N (N_of_ascii a)) (list_ascii_of_string s).

(** Letter case under the [i] flag: [A]-[Z] and [a]-[z] match each
    other, and no code unit outside ASCII matches an ASCII letter. *)
Definition toLowerCase (c : Z) : Z :=
  if (65 <=? c) && (c <=? 90) then c + 32 else c.

(** [word], given in lower case, matches at the head of [text]. *)
Fixpoint startsWithIgnoreCase (word text : list Z) : bool :=
  match word, text with
  | [], _ => true
  | _ :: _, [] => false
  | w :: word', c :: text' =>
      (toLowerCase c =? w) && startsWithIgnoreCase word' text'
  end.

(** The code units [.] does not match: LF, CR, U+2028 and U+2029. *)
Definition isLineTerminator (c : Z) : bool :=
  (c =? 10) || (c =? 13) || (c =? 8232) || (c =? 8233).

(** One round of the starred group [((?!chrome|android).)]: the head of
    [text] can be consumed. *)
Definition consumable (text : list Z) : bool :=
  match text with
  | [] => false
  | c :: _ =>
      negb (startsWithIgnoreCase (codeUnits "chrome") text)
      && negb (startsWithIgnoreCase (codeUnits "android") text)
      && negb (isLineTerminator c)
  end.

(** [/^((?!chrome|android).)*safari/i.test(userAgent)]: from the start of
    the string, either [safari] matches here or the head is consumed and
    the test goes on behind it. *)
Fixpoint userAgentIsSafari (userAgent : list Z) : bool :=
  startsWithIgnoreCase (codeUnits "safari") userAgent
  || match userAgent with
     | [] => false
     | _ :: rest => consumable userAgent && userAgentIsSafari rest
     end.

(** *** Seeking by a click on the canvas (lines 397-407) *)

(** What a click does: nothing; or the quotient [duration /
    canvasCurrentWidth] is not a finite number (the width is 0), where
    the model stops; or the element's [currentTime] is assigned and
    [setCurrentAudioTime] is called, both with [newCurrentTime]. *)
Inductive ClickOutcome : Type :=
| clickIgnored
| clickNotFinite
| clickSeeks (audio : option (MutableRefObject HTMLAudioElement))
             (newCurrentTime : Q).

(** [clientX] is the pointer position of the native event, [left] that
    of [canvasRef.current.getBoundingClientRect()]; the quotient, the
    difference and the product are those of doubles. *)
Definition handleRecordedAudioCurrentTime (dom : Dom) (c : Controls)
  (st : State) (audio : option (MutableRefObject HTMLAudioElement))
  (clientX left : Q) : ClickOutcome :=
  match audio with
  | Some {| current := Some element |} =>
      if canvasRef dom then
        if canvasCurrentWidth st =? 0 then clickNotFinite
        else
          let newCurrentTime :=
            Double.mul
              (Double.div (Double.nearest (duration c))
                          (Double.nearest (inject_Z (canvasCurrentWidth st))))
              (Double.sub (Double.nearest clientX) (Double.nearest left)) in
          clickSeeks
            (Some {| current :=
                       Some {| src := src element;
                               currentTime := newCurrentTime |} |})
            newCurrentTime
      else clickIgnored
  | _ => clickIgnored
  end.

(** *** The progress indicator (lines 409, 479-503) *)

Definition Qlt_bool (x y : Q) : bool := negb (Qle_bool y x).

(** Line 409.  The value is used only where [duration] is truthy. *)
Definition timeIndicatorStyleLeft (c : Controls) (st : State) : Q :=
  (currentAudioTime c / duration c * inject_Z (canvasCurrentWidth st))%Q.

(** The indicator as rendered: its [left] offset and, if the time label
    is rendered, whether the label carries the [-time-left] class. *)
Record ProgressIndicator : Type := mkProgressIndicator {
  indicatorLeft : Q;
  indicatorTimeLeftClass : option bool
}.

(** Lines 479-503, for the resolved values of the props
    [isProgressIndicatorShown] and [isProgressIndicatorTimeShown]. *)
Definition progressIndicator
  (isProgressIndicatorShown isProgressIndicatorTimeShown : bool)
  (c : Controls) (st : State) : option ProgressIndicator :=
  if isProgressIndicatorShown
     && isAvailableRecordedAudio c
     && negb (isProcessingRecordedAudio c)
     && negb (Qeq_bool (duration c) 0)
  then
    Some
      {| indicatorLeft :=
           if Qlt_bool (timeIndicatorStyleLeft c st)
                       (inject_Z (canvasCurrentWidth st) - 1)
           then timeIndicatorStyleLeft c st
           else (inject_Z (canvasCurrentWidth st) - 1)%Q;
         indicatorTimeLeftClass :=
           if isProgressIndicatorTimeShown
           then Some
                  (Qlt_bool
                     (inject_Z (canvasCurrentWidth st)
                      - currentAudioTime c * inject_Z (canvasCurrentWidth st)
                        / duration c)
                     70)
           else None |}
  else None.

(** *** Hover tracking (lines 262-276, 389-395) *)

Inductive CanvasListener : Type :=
| mouseleave_hideTimeIndicator
| mouseenter_showTimeIndicator.

Definition CanvasListener_eqb (a b : CanvasListener) : bool :=
  match a, b with
  | mouseleave_hideTimeIndicator, mouseleave_hideTimeIndicator => true
  | mouseenter_showTimeIndicator, mouseenter_showTimeIndicator => true
  | _, _ => false
  end.

(** [removeEventListener]: the listener goes, the others stay. *)
Fixpoint removeListener (l : CanvasListener) (ls : list CanvasListener)
  : list CanvasListener :=
  match ls with
  | [] => []
  | x :: rest =>
      if CanvasListener_eqb l x then rest else x :: removeListener l rest
  end.

(** The listener the effect installs for a value of
    [isRecordedCanvasHovered]. *)
Definition hoverListener (hovered : bool) : CanvasListener :=
  if hovered then mouseleave_hideTimeIndicator
  else mouseenter_showTimeIndicator.

(** Lines 263-268: the body of the effect, on the listeners of the
    canvas. *)
Definition hoverEffect (dom : Dom) (c : Controls) (hovered : bool)
  (listeners : list CanvasListener) : list CanvasListener :=
  if negb (isAvailableRecordedAudio c) then listeners
  else if canvasRef dom then hoverListener hovered :: listeners
  else listeners.

(** Lines 269-275: the cleanup the effect returns; none is returned on
    the early exit of line 263. *)
Definition hoverEffectCleanup (dom : Dom) (c : Controls) (hovered : bool)
  (listeners : list CanvasListener) : list CanvasListener :=
  if negb (isAvailableRecordedAudio c) then listeners
  else if canvasRef dom then removeListener (hoverListener hovered) listeners
  else listeners.

Inductive PointerEvent : Type :=
| mouseenter
| mouseleave.

(** Lines 389-395: what the installed listeners make of an event. *)
Definition dispatchPointer (listeners : list CanvasListener)
  (e : PointerEvent) (hovered : bool) : bool :=
  match e with
  | mouseenter =>
      if existsb (CanvasListener_eqb mouseenter_showTimeIndicator) listeners
      then true else hovered
  | mouseleave =>
      if existsb (CanvasListener_eqb mouseleave_hideTimeIndicator) listeners
      then false else hovered
  end.

(** [isRecordedCanvasHovered] with the listeners on the canvas. *)
Record Hover : Type := mkHover {
  isRecordedCanvasHovered : bool;
  canvasListeners : list CanvasListener
}.

(** The effect as first run, with [isRecordedCanvasHovered] at its
    initial [false] (line 149). *)
Definition hoverMounted (dom : Dom) (c : Controls) : Hover :=
  {| isRecordedCanvasHovered := false;
     canvasListeners := hoverEffect dom c false [] |}.

(** A pointer event: the listeners run; if the flag changed the
    component renders again, the old effect is cleaned up and the new
    one runs (dependencies of line 276). *)
Definition hoverStep (dom : Dom) (c : Controls) (s : Hover) (e : PointerEvent)
  : Hover :=
  let hovered :=
    dispatchPointer (canvasListeners s) e (isRecordedCanvasHovered s) in
  if Bool.eqb hovered (isRecordedCanvasHovered s) then s
  else
    {| isRecordedCanvasHovered := hovered;
       canvasListeners :=
         hoverEffect dom c hovered
           (hoverEffectCleanup dom c (isRecordedCanvasHovered s)
              (canvasListeners s)) |}.

(** *** A run of feed updates *)

Section LiveFrames.

Variable drawByLiveStream :
  LiveStreamRenderer.DrawByLiveStreamParams -> LiveStreamRenderer.Cells.

(** The layout effect run once for each update of the feed, oldest
    first; [feed] holds the controls of each update. *)
Fixpoint liveFrames (dom : Dom) (p : Props) (st : State) (feed : list Controls)
  : State * list Effect :=
  match feed with
  | [] => (st, [])
  | c :: rest =>
      let '(st1, calls1) := liveStreamEffect drawByLiveStream dom c p st in
      let '(st2, calls2) := liveFrames dom p st1 rest in
      (st2, calls1 ++ calls2)
  end.

End LiveFrames.

End VoiceVisualizer.

(** * Properties *)

Import VoiceVisualizer.

(** ** Vocabulary of the statements *)

(** [e] is an even integer nearest to [x]. *)
Definition nearestEven (x : Q) (e : Z) : Prop :=
  Z.even e = true /\
  forall e' : Z, Z.even e' = true ->
    (Qabs (x - inject_Z e) <= Qabs (x - inject_Z e'))%Q.

(** [e] is the largest even integer that does not exceed [x]. *)
Definition evenFloor (x : Q) (e : Z) : Prop :=
  Z.even e = true /\
  (inject_Z e <= x)%Q /\
  forall e' : Z, Z.even e' = true -> (inject_Z e' <= x)%Q -> e' <= e.

(** [n] is an integer nearest to [x]. *)
Definition nearestInteger (x : Q) (n : Z) : Prop :=
  forall n' : Z, (Qabs (x - inject_Z n) <= Qabs (x - inject_Z n'))%Q.

(** A display of one and a half device pixels per pixel, the container
    300 by 133. *)
Definition dom_dpr_3_2 : Dom :=
  {| innerWidth := 1024;
     devicePixelRatio := 3 # 2;
     isSafari := false;
     hasResizeObserver := true;
     canvasContainerRef := Some {| clientWidth := 300; clientHeight := 133 |};
     canvasRef := true |}.

(** A display of 1.15 device pixels per pixel, the container 25 by
    200: the double product [200 * 1.15] falls just short of 230. *)
Definition dom_dpr_1_15 : Dom :=
  {| innerWidth := 1280;
     devicePixelRatio := 115 # 100;
     isSafari := false;
     hasResizeObserver := true;
     canvasContainerRef := Some {| clientWidth := 25; clientHeight := 200 |};
     canvasRef := true |}.

(** The default props (lines 106-119). *)
Definition defaultProps : Props :=
  {| speed := 3;
     backgroundColor := "transparent";
     mainBarColor := "#FFFFFF";
     secondaryBarColor := "#5e5e5e";
     barWidth := 2;
     gap := 1;
     rounded := 5;
     fullscreen := false;
     animateCurrentPick := true;
     onlyRecording := false |}.

(** The bar width the policy of section 6 asks for. *)
Definition effectiveBarWidth (narrow : bool) (barWidth gap : Z) : Z :=
  if narrow && (0 <? gap) then barWidth + 1 else barWidth.

(** A window 600 pixels wide. *)
Definition narrowState : State :=
  {| canvasCurrentWidth := 300;
     canvasCurrentHeight := 200;
     canvasWidth := 600;
     screenWidth := 600;
     isResizing := false;
     picksRef := [];
     indexSpeedRef := 3;
     indexRef := 3;
     index2Ref := 3 |}.

(** A frame redraws the visible window when it calls [drawByLiveStream]:
    nothing else in the layout effect touches the canvas. *)
Definition redraws (calls : list Effect) : Prop :=
  exists a, In (call_drawByLiveStream a) calls.

(** A renderer that appends one empty slot to the pick buffer. *)
Definition appendingRenderer (a : LiveStreamRenderer.DrawByLiveStreamParams)
  : LiveStreamRenderer.Cells :=
  {| LiveStreamRenderer.picks' := LiveStreamRenderer.picks a ++ [None];
     LiveStreamRenderer.index' := LiveStreamRenderer.index a;
     LiveStreamRenderer.index2' := LiveStreamRenderer.index2 a |}.

(** A recording in progress with five amplitudes in the feed. *)
Definition recordingControls : Controls :=
  {| audioData := [128; 130; 127; 140; 120];
     isRecordingInProgress := true;
     duration := 0;
     currentAudioTime := 0;
     audioSrc := "";
     bufferFromRecordedBlob := None;
     isAvailableRecordedAudio := false;
     isPausedRecording := false;
     isProcessingRecordedAudio := false;
     isCleared := false;
     isProcessingOnResize := false |}.

(** One frame after a commit: the speed counter stands at 1 of 3. *)
Definition throttledState : State :=
  {| canvasCurrentWidth := 300;
     canvasCurrentHeight := 200;
     canvasWidth := 450;
     screenWidth := 1024;
     isResizing := false;
     picksRef := [None];
     indexSpeedRef := 1;
     indexRef := 4;
     index2Ref := 4 |}.

(** An audio element that already plays a recording, 2 seconds in. *)
Definition playingAudio : option (MutableRefObject HTMLAudioElement) :=
  Some {| current := Some {| src := "blob:recorded-1"; currentTime := 2 |} |}.

(** Controls while a resize-triggered recompute is in progress. *)
Definition resizingControls : Controls :=
  {| audioData := [];
     isRecordingInProgress := false;
     duration := 10;
     currentAudioTime := 2;
     audioSrc := "blob:recorded-2";
     bufferFromRecordedBlob := Some [(1 # 2)%Q; (-1 # 4)%Q; (3 # 4)%Q; 0%Q];
     isAvailableRecordedAudio := true;
     isPausedRecording := false;
     isProcessingRecordedAudio := false;
     isCleared := false;
     isProcessingOnResize := true |}.

(** The delays of the timers set, the handlers subscribed to the
    window's resize event and those subscribed to the container. *)
Definition timeouts (calls : list Effect) : list Z :=
  flat_map (fun e => match e with
                     | call_setTimeout_onResize ms => [ms]
                     | _ => []
                     end) calls.

Definition windowSubscriptions (calls : list Effect) : list Handler :=
  flat_map (fun e => match e with
                     | call_window_addEventListener_resize h => [h]
                     | _ => []
                     end) calls.

Definition containerSubscriptions (calls : list Effect) : list Handler :=
  flat_map (fun e => match e with
                     | call_ResizeObserver_observe h => [h]
                     | _ => []
                     end) calls.

(** Safari on a phone, then a browser without [ResizeObserver]. *)
Definition dom_safari : Dom :=
  {| innerWidth := 390;
     devicePixelRatio := 3;
     isSafari := true;
     hasResizeObserver := true;
     canvasContainerRef := Some {| clientWidth := 350; clientHeight := 100 |};
     canvasRef := true |}.

Definition dom_no_observer : Dom :=
  {| innerWidth := 1280;
     devicePixelRatio := 1;
     isSafari := false;
     hasResizeObserver := false;
     canvasContainerRef := Some {| clientWidth := 640; clientHeight := 200 |};
     canvasRef := true |}.

(** The calls of the debounced [onResize]. *)
Definition debouncedCalls (calls : list Effect) : list Effect :=
  filter isDebouncedCall calls.

(** A desktop window whose container is 800 by 200, then 820 by 200. *)
Definition dom_800 : Dom :=
  {| innerWidth := 1280;
     devicePixelRatio := 2;
     isSafari := false;
     hasResizeObserver := true;
     canvasContainerRef := Some {| clientWidth := 800; clientHeight := 200 |};
     canvasRef := true |}.

Definition dom_820 : Dom :=
  {| innerWidth := 1300;
     devicePixelRatio := 2;
     isSafari := false;
     hasResizeObserver := true;
     canvasContainerRef := Some {| clientWidth := 820; clientHeight := 200 |};
     canvasRef := true |}.

(** Controls with a recorded buffer, no resize being processed. *)
Definition recordedControls : Controls :=
  {| audioData := [];
     isRecordingInProgress := false;
     duration := 10;
     currentAudioTime := 4;
     audioSrc := "blob:recorded-1";
     bufferFromRecordedBlob := Some [(1 # 2)%Q; (-1 # 4)%Q; (3 # 4)%Q; 0%Q];
     isAvailableRecordedAudio := true;
     isPausedRecording := false;
     isProcessingRecordedAudio := false;
     isCleared := false;
     isProcessingOnResize := false |}.

(** The cells after the first geometry recompute, no timer pending. *)
Definition settledPipeline : Pipeline :=
  {| cells := onResize dom_800 defaultProps (initialState dom_800 defaultProps);
     debouncePending := false |}.

(** The scenario of section 8: [barWidth = 2], [gap = 1], a surface 100
    pixels wide and 200 high; first with no sample, then with four. *)
Definition emptyJob : BarExtractor.GetBarsDataParams :=
  {| BarExtractor.bufferData := [];
     BarExtractor.height := 200;
     BarExtractor.width := 100;
     BarExtractor.barWidth := 2;
     BarExtractor.gap := 1 |}.

Definition fourSampleJob : BarExtractor.GetBarsDataParams :=
  {| BarExtractor.bufferData := [(1 # 2)%Q; (-1 # 4)%Q; (3 # 4)%Q; 0%Q];
     BarExtractor.height := 200;
     BarExtractor.width := 100;
     BarExtractor.barWidth := 2;
     BarExtractor.gap := 1 |}.


Definition tenBars : BlobRenderer.DrawByBlobParams :=
  {| BlobRenderer.barsData :=
       repeat {| amplitudeAboveAxis := 50; amplitudeBelowAxis := 50 |} 10;
     BlobRenderer.canvasWidth := 40;
     BlobRenderer.barWidth := 2;
     BlobRenderer.gap := 1;
     BlobRenderer.backgroundColor := "transparent";
     BlobRenderer.mainBarColor := "#FFFFFF";
     BlobRenderer.secondaryBarColor := "#5e5e5e";
     BlobRenderer.currentAudioTime := 4;
     BlobRenderer.rounded := 5;
     BlobRenderer.duration := 10 |}.

(** The recorded buffer extracted for a canvas 400 wide, then 800 wide. *)
Definition job_400 : BarExtractor.GetBarsDataParams :=
  {| BarExtractor.bufferData := [(1 # 2)%Q; (-1 # 4)%Q; (3 # 4)%Q; 0%Q];
     BarExtractor.height := 200;
     BarExtractor.width := 400;
     BarExtractor.barWidth := 2;
     BarExtractor.gap := 1 |}.

Definition job_800 : BarExtractor.GetBarsDataParams :=
  {| BarExtractor.bufferData := [(1 # 2)%Q; (-1 # 4)%Q; (3 # 4)%Q; 0%Q];
     BarExtractor.height := 200;
     BarExtractor.width := 800;
     BarExtractor.barWidth := 2;
     BarExtractor.gap := 1 |}.

(** The calls of [drawByLiveStream] among the calls of a run. *)
Definition isLiveDrawCall (e : Effect) : bool :=
  match e with
  | call_drawByLiveStream _ => true
  | _ => false
  end.

Definition liveDraws (calls : list Effect) : list Effect :=
  filter isLiveDrawCall calls.

(** A recording whose feed has not delivered anything yet. *)
Definition silentControls : Controls :=
  {| audioData := [];
     isRecordingInProgress := true;
     duration := 0;
     currentAudioTime := 0;
     audioSrc := "";
     bufferFromRecordedBlob := None;
     isAvailableRecordedAudio := false;
     isPausedRecording := false;
     isProcessingRecordedAudio := false;
     isCleared := false;
     isProcessingOnResize := false |}.

(** A forwarded ref to which no element is attached, and the ref of the
    controls with an element attached. *)
Definition detachedRef : MutableRefObject HTMLAudioElement :=
  {| current := None |}.

Definition controlsRef : option (MutableRefObject HTMLAudioElement) :=
  Some {| current := Some {| src := "blob:recorded-1"; currentTime := 2 |} |}.

(** The bars shown for the recorded buffer. *)
Definition threeBars : list BarsData :=
  [ {| amplitudeAboveAxis := 10; amplitudeBelowAxis := 10 |};
    {| amplitudeAboveAxis := 40; amplitudeBelowAxis := 40 |};
    {| amplitudeAboveAxis := 25; amplitudeBelowAxis := 25 |} ].

(** Controls after the recording was cleared. *)
Definition clearedControls : Controls :=
  {| audioData := [];
     isRecordingInProgress := false;
     duration := 0;
     currentAudioTime := 0;
     audioSrc := "";
     bufferFromRecordedBlob := None;
     isAvailableRecordedAudio := false;
     isPausedRecording := false;
     isProcessingRecordedAudio := false;
     isCleared := true;
     isProcessingOnResize := false |}.

(** The recorded audio of [recordedControls], 10 seconds long, shown on
    a canvas 400 pixels wide; then the same some time into playback. *)
Definition playbackState : State :=
  {| canvasCurrentWidth := 400;
     canvasCurrentHeight := 200;
     canvasWidth := 800;
     screenWidth := 1280;
     isResizing := false;
     picksRef := [];
     indexSpeedRef := 3;
     indexRef := 2;
     index2Ref := 2 |}.

Definition controlsAt (time : Q) : Controls :=
  {| audioData := [];
     isRecordingInProgress := false;
     duration := 10;
     currentAudioTime := time;
     audioSrc := "blob:recorded-1";
     bufferFromRecordedBlob := Some [(1 # 2)%Q; (-1 # 4)%Q; (3 # 4)%Q; 0%Q];
     isAvailableRecordedAudio := true;
     isPausedRecording := false;
     isProcessingRecordedAudio := false;
     isCleared := false;
     isProcessingOnResize := false |}.

(** Whether the pointer is over the canvas after a run of pointer
    events that began outside it: what the last event says. *)
Definition pointerInside (es : list PointerEvent) : bool :=
  fold_left (fun _ e => match e with
                        | mouseenter => true
                        | mouseleave => false
                        end) es false.

(** [word] starts at one of the positions [0 .. last] of [text]. *)
Definition startsWithin (word text : list Z) (last : nat) : bool :=
  existsb (fun j => startsWithIgnoreCase word (skipn j text)) (seq 0 (S last)).

(** The user agents of Chrome on Windows and of Safari on an iPhone. *)
Definition chromeUserAgentHead : string :=
  "Mozilla/5.0 (Windows NT 10.0; Win64; x64) AppleWebKit/537.36 (KHTML, like Gecko) ".

Definition chromeUserAgentTail : string :=
  "Chrome/120.0.0.0 Safari/537.36".

Definition iPhoneUserAgent : string :=
  "Mozilla/5.0 (iPhone; CPU iPhone OS 17_0 like Mac OS X) AppleWebKit/605.1.15 (KHTML, like Gecko) Version/17.0 Mobile/15E148 Safari/604.1".

(** Props with a bar half a pixel wide. *)
Definition thinBarProps : Props :=
  {| speed := 3;
     backgroundColor := "transparent";
     mainBarColor := "#FFFFFF";
     secondaryBarColor := "#5e5e5e";
     barWidth := 1 # 2;
     gap := 1;
     rounded := 5;
     fullscreen := false;
     animateCurrentPick := true;
     onlyRecording := false |}.

(** ** [Math.trunc] and [Math.round] *)

Lemma trunc_nonneg (x : Q) : (0 <= x)%Q -> Math.trunc x = Qfloor x.
Proof.
  destruct x as [n d]. unfold Qle, Math.trunc, Qfloor. simpl. intros H.
  apply Z.quot_div_nonneg; lia.
Qed.

Lemma trunc_compat (x y : Q) : (x == y)%Q -> Math.trunc x = Math.trunc y.
Proof.
  destruct x as [n d], y as [m e]. unfold Qeq, Math.trunc. simpl. intros H.
  rewrite <- (Z.quot_mul_cancel_r n (Z.pos d) (Z.pos e)) by lia.
  rewrite H.
  rewrite (Z.mul_comm (Z.pos d) (Z.pos e)).
  rewrite Z.quot_mul_cancel_r by lia. reflexivity.
Qed.

Lemma trunc_inject_Z (z : Z) : Math.trunc (inject_Z z) = z.
Proof. unfold Math.trunc, inject_Z. simpl. apply Z.quot_1_r. Qed.

Lemma round_within_half (x : Q) :
  (Qabs (x - inject_Z (Math.round x)) <= 1 # 2)%Q.
Proof.
  unfold Math.round.
  pose proof (Qfloor_le (x + (1 # 2))) as Hlo.
  pose proof (Qlt_floor (x + (1 # 2))) as Hhi.
  rewrite inject_Z_plus in Hhi. change (inject_Z 1) with 1%Q in Hhi.
  apply Qabs_Qle_condition. split; lra.
Qed.

Lemma round_nearest (x : Q) (n : Z) :
  (Qabs (x - inject_Z (Math.round x)) <= Qabs (x - inject_Z n))%Q.
Proof.
  pose proof (round_within_half x) as Hr.
  apply Qabs_Qle_condition in Hr. destruct Hr as [Hr1 Hr2].
  unfold Math.round in *.
  pose proof (Qfloor_le (x + (1 # 2))) as Hlo.
  pose proof (Qlt_floor (x + (1 # 2))) as Hhi.
  rewrite inject_Z_plus in Hhi. change (inject_Z 1) with 1%Q in Hhi.
  set (r := Qfloor (x + (1 # 2))) in *.
  destruct (Z.lt_trichotomy n r) as [Hn | [Hn | Hn]].
  - assert (inject_Z n + 1 <= inject_Z r)%Q as Hq.
    { change 1%Q with (inject_Z 1). rewrite <- (inject_Z_plus n 1).
      rewrite <- Zle_Qle. lia. }
    eapply Qle_trans; [| apply Qle_Qabs].
    apply Qabs_Qle_condition. split; lra.
  - subst n. apply Qle_refl.
  - assert (inject_Z r + 1 <= inject_Z n)%Q as Hq.
    { change 1%Q with (inject_Z 1). rewrite <- (inject_Z_plus r 1).
      rewrite <- Zle_Qle. lia. }
    rewrite <- (Qabs_opp (x - inject_Z n)).
    eapply Qle_trans; [| apply Qle_Qabs].
    apply Qabs_Qle_condition. split; lra.
Qed.

(** ** Rounding to the nearest double *)

Lemma roundHalfEven_nonneg (x : Q) :
  (0 <= x)%Q -> 0 <= Double.roundHalfEven x.
Proof.
  intros Hx. unfold Double.roundHalfEven.
  assert (0 <= Qfloor x) as Hf.
  { rewrite <- (Qfloor_Z 0). apply Qfloor_resp_le. exact Hx. }
  destruct (x - inject_Z (Qfloor x) ?= 1 # 2)%Q; try lia.
  destruct (Z.even (Qfloor x)); lia.
Qed.

Lemma nearest_nonneg (x : Q) : (0 <= x)%Q -> (0 <= Double.nearest x)%Q.
Proof.
  intros Hx. unfold Double.nearest.
  destruct (Qeq_bool x 0); [apply Qle_refl |].
  assert (Qle_bool 0 x = true) as Hb by (apply Qle_bool_iff; exact Hx).
  rewrite Hb. rewrite Qred_correct.
  set (e := Z.max (Double.ilog2 (Qabs x) - 52) Double.emin).
  assert (0 < 2 ^ e)%Q as Hp by (apply Qpower_0_lt; reflexivity).
  apply Qmult_le_0_compat; [| apply Qlt_le_weak; exact Hp].
  change 0%Q with (inject_Z 0). rewrite <- Zle_Qle.
  apply roundHalfEven_nonneg.
  apply Qle_shift_div_l; [exact Hp |].
  rewrite Qmult_0_l. apply Qabs_nonneg.
Qed.


Lemma devicePixels_nonneg (dom : Dom) (n : Z) :
  0 <= n -> (0 <= devicePixelRatio dom)%Q -> (0 <= devicePixels dom n)%Q.
Proof.
  intros Hn Hd. unfold devicePixels, Double.mul.
  apply nearest_nonneg. apply Qmult_le_0_compat; apply nearest_nonneg.
  - change 0%Q with (inject_Z 0). rewrite <- Zle_Qle. exact Hn.
  - exact Hd.
Qed.

(** ** Geometry recompute *)

Lemma roundedHeight_even (dom : Dom) (container : HTMLDivElement) :
  Z.even (roundedHeight dom container) = true.
Proof.
  unfold roundedHeight. rewrite Z.even_mul. apply orb_true_r.
Qed.

Lemma roundedHeight_bounds (dom : Dom) (container : HTMLDivElement) :
  0 <= clientHeight container ->
  (0 <= devicePixelRatio dom)%Q ->
  let x := devicePixels dom (clientHeight container) in
  (inject_Z (roundedHeight dom container) <= x
   /\ x < inject_Z (roundedHeight dom container) + 2)%Q.
Proof.
  intros Hh Hd x. unfold roundedHeight. fold x.
  pose proof (devicePixels_nonneg dom (clientHeight container) Hh Hd) as Hx.
  fold x in Hx.
  set (y := (x / 2)%Q).
  assert (x == y * 2)%Q as Hy by (unfold y; field).
  clearbody x y.
  assert (0 <= y)%Q as Hy0 by lra.
  rewrite (trunc_nonneg _ Hy0).
  pose proof (Qfloor_le y) as Hlo.
  pose proof (Qlt_floor y) as Hhi.
  rewrite inject_Z_plus in Hhi. change (inject_Z 1) with 1%Q in Hhi.
  rewrite inject_Z_mult. change (inject_Z 2) with 2%Q.
  split; lra.
Qed.

(** C4, as it is written, at a container 133 pixels high on a display of
    1.5 device pixels per pixel: the height comes out as 198, while 200
    is an even integer closer to 199.5. *)
Lemma onResize_height_not_nearest_even :
  canvasContainerRef dom_dpr_3_2
    = Some {| clientWidth := 300; clientHeight := 133 |}
  /\ canvasCurrentHeight
       (onResize dom_dpr_3_2 defaultProps (initialState dom_dpr_3_2 defaultProps))
     = 198
  /\ ~ nearestEven
         (inject_Z 133 * devicePixelRatio dom_dpr_3_2)
         (canvasCurrentHeight
            (onResize dom_dpr_3_2 defaultProps
               (initialState dom_dpr_3_2 defaultProps))).
Proof.
  split; [reflexivity |]. split; [vm_compute; reflexivity |].
  intros [_ Hnear]. specialize (Hnear 200 eq_refl).
  vm_compute in Hnear. apply Hnear. reflexivity.
Qed.

(** C4, amended: with both elements attached, [onResize] sets the canvas
    height to the largest even integer not above the product
    [clientHeight * devicePixelRatio] as double arithmetic gives it (it
    rounds down, not to the nearest), and the canvas width to an integer
    nearest to the double product [clientWidth * devicePixelRatio]. *)
Theorem onResize_geometry (dom : Dom) (p : Props) (st : State)
  (container : HTMLDivElement) :
  canvasContainerRef dom = Some container ->
  canvasRef dom = true ->
  0 <= clientHeight container ->
  (0 <= devicePixelRatio dom)%Q ->
  evenFloor (devicePixels dom (clientHeight container))
            (canvasCurrentHeight (onResize dom p st))
  /\ nearestInteger (devicePixels dom (clientWidth container))
                    (canvasWidth (onResize dom p st)).
Proof.
  intros Hc Hv Hh Hd. unfold onResize. rewrite Hc, Hv.
  cbn [canvasCurrentHeight canvasWidth].
  destruct (roundedHeight_bounds dom container Hh Hd) as [Hlo Hhi].
  pose proof (roundedHeight_even dom container) as Hev.
  split.
  - split; [exact Hev |]. split; [exact Hlo |].
    intros e' He' Hle.
    assert (inject_Z e' < inject_Z (roundedHeight dom container) + 2)%Q as Hlt
      by lra.
    change 2%Q with (inject_Z 2) in Hlt.
    rewrite <- inject_Z_plus in Hlt. rewrite <- Zlt_Qlt in Hlt.
    rewrite Z.even_spec in He', Hev.
    destruct He' as [a Ha], Hev as [b Hb]. lia.
  - intros n'. apply round_nearest.
Qed.

Lemma onResize_geometry_witness :
  canvasCurrentHeight
    (onResize dom_dpr_1_15 defaultProps (initialState dom_dpr_1_15 defaultProps))
  = 228
  /\ evenFloor (devicePixels dom_dpr_1_15 200) 228
  /\ nearestInteger (devicePixels dom_dpr_1_15 25) 29.
Proof.
  split; [vm_compute; reflexivity |].
  assert (canvasCurrentHeight
            (onResize dom_dpr_1_15 defaultProps
               (initialState dom_dpr_1_15 defaultProps)) = 228) as Hh
    by (vm_compute; reflexivity).
  assert (canvasWidth
            (onResize dom_dpr_1_15 defaultProps
               (initialState dom_dpr_1_15 defaultProps)) = 29) as Hw
    by (vm_compute; reflexivity).
  rewrite <- Hh at 1. rewrite <- Hw.
  apply (onResize_geometry dom_dpr_1_15 defaultProps
           (initialState dom_dpr_1_15 defaultProps)
           {| clientWidth := 25; clientHeight := 200 |}).
  - reflexivity.
  - reflexivity.
  - simpl. lia.
  - simpl. unfold Qle. simpl. lia.
Defined.

(** ** Effective bar width and bar pitch *)

Lemma formattedGap_integer (p : Props) (g : Z) :
  (gap p == inject_Z g)%Q -> formattedGap p = g.
Proof.
  intros Hg. unfold formattedGap.
  rewrite (trunc_compat _ _ Hg). apply trunc_inject_Z.
Qed.

Lemma formattedBarWidth_integer (p : Props) (st : State) (bw g : Z) :
  (barWidth p == inject_Z bw)%Q ->
  (gap p == inject_Z g)%Q ->
  formattedBarWidth p st = effectiveBarWidth (screenWidth st <? 768) bw g.
Proof.
  intros Hb Hg. unfold formattedBarWidth, effectiveBarWidth, isMobile.
  rewrite (formattedGap_integer p g Hg).
  destruct ((screenWidth st <? 768) && (0 <? g)).
  - assert (barWidth p + 1 == inject_Z (bw + 1))%Q as H1.
    { rewrite inject_Z_plus, Hb. reflexivity. }
    rewrite (trunc_compat _ _ H1). apply trunc_inject_Z.
  - rewrite (trunc_compat _ _ Hb). apply trunc_inject_Z.
Qed.

(** C7: for an integer [barWidth] and an integer [gap], the effective bar
    width is [barWidth + 1] on a screen narrower than 768 pixels when
    [gap > 0] and [barWidth] otherwise; the pitch is
    [unit = effective + gap * effective]; and the live renderer, the
    blob renderer and the extractor are all called with that width and
    that pitch. *)
Theorem effective_bar_width_and_unit
  (p : Props) (st : State) (bw g : Z) :
  (barWidth p == inject_Z bw)%Q ->
  (gap p == inject_Z g)%Q ->
  let effective := effectiveBarWidth (screenWidth st <? 768) bw g in
  formattedBarWidth p st = effective
  /\ unit p st = effective + g * effective
  /\ (forall draw dom c a,
        In (call_drawByLiveStream a) (snd (liveStreamEffect draw dom c p st)) ->
        LiveStreamRenderer.barWidth a = effective
        /\ LiveStreamRenderer.unit a = effective + g * effective)
  /\ (forall dom c bars a,
        In (call_drawByBlob a) (blobEffect dom c p st bars) ->
        BlobRenderer.barWidth a = effective
        /\ BlobRenderer.unit a = effective + g * effective)
  /\ (forall dom c job,
        In (call_run job) (snd (extractionEffect dom c p st)) ->
        BarExtractor.barWidth job = effective
        /\ BarExtractor.unit job = effective + g * effective).
Proof.
  intros Hb Hg effective.
  pose proof (formattedBarWidth_integer p st bw g Hb Hg) as Hw.
  pose proof (formattedGap_integer p g Hg) as Hgap.
  fold effective in Hw.
  assert (unit p st = effective + g * effective) as Hu.
  { unfold unit. rewrite Hw, Hgap. reflexivity. }
  split; [exact Hw |]. split; [exact Hu |]. split; [| split].
  - intros draw dom c a Hin. unfold liveStreamEffect in Hin.
    destruct (negb (canvasRef dom)); [contradiction |].
    destruct (commitDue c p st); simpl in Hin; [| contradiction].
    destruct Hin as [Hin | []]. inversion Hin; subst a; clear Hin. simpl.
    split; [exact Hw | exact Hu].
  - intros dom c bars a Hin. unfold blobEffect in Hin.
    destruct (onlyRecording p || (List.length bars =? 0)%nat
              || negb (canvasRef dom) || isProcessingRecordedAudio c);
      [contradiction |].
    destruct (isCleared c); simpl in Hin.
    + destruct Hin as [Hin | []]. discriminate Hin.
    + destruct Hin as [Hin | []]. inversion Hin; subst a; clear Hin.
      unfold BlobRenderer.unit. simpl. rewrite Hw, Hgap. split; reflexivity.
  - intros dom c job Hin. unfold extractionEffect in Hin.
    destruct (bufferFromRecordedBlob c); [| contradiction].
    destruct (negb (canvasRef dom) || isRecordingInProgress c || isResizing st);
      [contradiction |].
    destruct (onlyRecording p); simpl in Hin.
    + destruct Hin as [Hin | []]. discriminate Hin.
    + destruct Hin as [Hin | []]. inversion Hin; subst job; clear Hin.
      unfold BarExtractor.unit. simpl. rewrite Hw, Hgap. split; reflexivity.
Qed.

Lemma effective_bar_width_and_unit_witness :
  formattedBarWidth defaultProps narrowState = 3
  /\ unit defaultProps narrowState = 6.
Proof.
  pose proof (effective_bar_width_and_unit defaultProps narrowState 2 1) as H.
  simpl in H.
  destruct H as [Hw [Hu _]]; [reflexivity | reflexivity |].
  split; [exact Hw | exact Hu].
Defined.

(** Outside the integers the component truncates first: a [gap] of 1.5
    counts as 1, so that on a narrow screen a [barWidth] of 2 gives a
    pitch of 6. *)
Remark fractional_gap_is_truncated :
  unit {| speed := 3;
          backgroundColor := "transparent";
          mainBarColor := "#FFFFFF";
          secondaryBarColor := "#5e5e5e";
          barWidth := 2;
          gap := 3 # 2;
          rounded := 5;
          fullscreen := false;
          animateCurrentPick := true;
          onlyRecording := false |} narrowState = 6.
Proof. reflexivity. Qed.

(** ** Live waveform: throttled commits *)

(** C3, as it is written, on a frame where the counter is below the
    threshold and the feed is not empty: the canvas is attached, no
    commit is due, and the effect makes no call at all, so nothing is
    redrawn. *)
Lemma throttled_frame_does_not_redraw :
  canvasRef dom_dpr_3_2 = true
  /\ commitDue recordingControls defaultProps throttledState = false
  /\ ~ redraws
         (snd (liveStreamEffect appendingRenderer dom_dpr_3_2
                 recordingControls defaultProps throttledState)).
Proof.
  split; [reflexivity |]. split; [reflexivity |].
  intros [a Hin]. vm_compute in Hin. exact Hin.
Qed.

(** C3, amended: with the canvas attached, a feed update for which the
    speed counter has reached the threshold, or the feed is empty, makes
    exactly one call of [drawByLiveStream] (commit and redraw), leaves in
    the pick buffer and the cursors what that call leaves there, and
    restarts the counter; any other feed update makes no call, so nothing
    is committed and nothing is redrawn, the pick buffer and the cursors
    stay as they were, and the counter goes up by one. *)
Theorem liveStreamEffect_commit_or_skip
  (draw : LiveStreamRenderer.DrawByLiveStreamParams -> LiveStreamRenderer.Cells)
  (dom : Dom) (c : Controls) (p : Props) (st : State) :
  canvasRef dom = true ->
  let st' := fst (liveStreamEffect draw dom c p st) in
  let calls := snd (liveStreamEffect draw dom c p st) in
  (commitDue c p st = true ->
     exists a,
       calls = [call_drawByLiveStream a]
       /\ LiveStreamRenderer.picks a = picksRef st
       /\ picksRef st' = LiveStreamRenderer.picks' (draw a)
       /\ indexRef st' = LiveStreamRenderer.index' (draw a)
       /\ index2Ref st' = LiveStreamRenderer.index2' (draw a)
       /\ indexSpeedRef st'
          = (if (List.length (audioData c) =? 0)%nat
             then formattedSpeed p else 0) + 1)
  /\ (commitDue c p st = false ->
        calls = []
        /\ ~ redraws calls
        /\ picksRef st' = picksRef st
        /\ indexRef st' = indexRef st
        /\ index2Ref st' = index2Ref st
        /\ indexSpeedRef st' = indexSpeedRef st + 1).
Proof.
  intros Hcanvas st' calls. subst st' calls.
  unfold liveStreamEffect. rewrite Hcanvas. simpl negb. cbv iota.
  split; intros Hdue; rewrite Hdue.
  - eexists. simpl. repeat split; reflexivity.
  - simpl. repeat split; try reflexivity.
    intros [a []].
Qed.

Lemma liveStreamEffect_commit_or_skip_witness :
  snd (liveStreamEffect appendingRenderer dom_dpr_3_2
         recordingControls defaultProps throttledState) = []
  /\ picksRef (fst (liveStreamEffect appendingRenderer dom_dpr_3_2
                      recordingControls defaultProps throttledState)) = [None]
  /\ indexSpeedRef (fst (liveStreamEffect appendingRenderer dom_dpr_3_2
                           recordingControls defaultProps throttledState)) = 2.
Proof.
  destruct (liveStreamEffect_commit_or_skip appendingRenderer dom_dpr_3_2
              recordingControls defaultProps throttledState eq_refl)
    as [_ Hskip].
  destruct (Hskip eq_refl) as [Hcalls [_ [Hpicks [_ [_ Hspeed]]]]].
  split; [exact Hcalls |]. split; [exact Hpicks | exact Hspeed].
Defined.

(** ** Completion of an extraction *)

(** C10: when the completion callback fires it calls both processing-flag
    setters with [false], and nothing else outside the component; the
    [src] of the audio element becomes [audioSrc] if an element is
    attached and the resize-processing flag is not set, and in every
    other case, in particular after a resize-triggered recompute, the
    element is left as it was. *)
Theorem completedAudioProcessing_effects
  (c : Controls) (audio : option (MutableRefObject HTMLAudioElement)) :
  snd (completedAudioProcessing c audio)
    = [call_setIsProcessingOnResize false;
       call_setIsProcessingAudioOnComplete false]
  /\ (isProcessingOnResize c = true ->
        fst (completedAudioProcessing c audio) = audio)
  /\ (forall element,
        audio = Some {| current := Some element |} ->
        isProcessingOnResize c = false ->
        fst (completedAudioProcessing c audio)
          = Some {| current :=
                      Some {| src := audioSrc c;
                              currentTime := currentTime element |} |})
  /\ (fst (completedAudioProcessing c audio) <> audio ->
        isProcessingOnResize c = false).
Proof.
  unfold completedAudioProcessing.
  destruct audio as [[[element |]] |]; simpl;
    destruct (isProcessingOnResize c); simpl;
    repeat split; try reflexivity; try congruence;
    intros; try congruence.
Qed.

Lemma completedAudioProcessing_effects_witness :
  fst (completedAudioProcessing resizingControls playingAudio) = playingAudio.
Proof.
  destruct (completedAudioProcessing_effects resizingControls playingAudio)
    as [_ [Hkeep _]].
  exact (Hkeep eq_refl).
Defined.

(** ** Resize subscription *)

Lemma extractionEffect_geometry
  (dom : Dom) (c : Controls) (p : Props) (st : State) :
  let st' := fst (extractionEffect dom c p st) in
  canvasCurrentWidth st' = canvasCurrentWidth st
  /\ canvasCurrentHeight st' = canvasCurrentHeight st
  /\ canvasWidth st' = canvasWidth st
  /\ isResizing st' = isResizing st.
Proof.
  unfold extractionEffect.
  destruct (bufferFromRecordedBlob c); simpl;
    [| repeat split; reflexivity].
  destruct (negb (canvasRef dom) || isRecordingInProgress c || isResizing st);
    simpl; [repeat split; reflexivity |].
  destruct (onlyRecording p); simpl; repeat split; reflexivity.
Qed.

(** The render that follows a handler leaves the geometry as the handler
    set it. *)
Lemma commit_geometry
  (dom : Dom) (c : Controls) (p : Props) (before after : State)
  (calls : list Effect) :
  let st' := fst (commit dom c p before after calls) in
  canvasCurrentWidth st' = canvasCurrentWidth after
  /\ canvasCurrentHeight st' = canvasCurrentHeight after
  /\ canvasWidth st' = canvasWidth after
  /\ isResizing st' = isResizing after.
Proof.
  unfold commit. destruct (extractionDepsChanged before after).
  - pose proof (extractionEffect_geometry dom c p after) as H.
    destruct (extractionEffect dom c p after) as [st more]. exact H.
  - simpl. repeat split; reflexivity.
Qed.

(** C9: where the user agent is Safari the component subscribes to the
    window's resize event, not to the container, recomputes the geometry
    at once and sets three timers that recompute it again 100, 500 and
    1000 ms after mount.
    Where there is no [ResizeObserver] it subscribes to the window's
    resize event, recomputes the geometry at once and sets no timer.
    A timer that expires with both elements attached leaves in the cells
    the geometry read at that moment. *)
Theorem resizeEffect_fallbacks (dom : Dom) (p : Props) (st : State) :
  (isSafari dom = true ->
     windowSubscriptions (snd (resizeEffect dom p st)) = [handleResizeSafari]
     /\ containerSubscriptions (snd (resizeEffect dom p st)) = []
     /\ timeouts (snd (resizeEffect dom p st)) = [100; 500; 1000]
     /\ fst (resizeEffect dom p st) = onResize dom p st)
  /\ (isSafari dom = false -> hasResizeObserver dom = false ->
        windowSubscriptions (snd (resizeEffect dom p st)) = [handleResizeWindow]
        /\ containerSubscriptions (snd (resizeEffect dom p st)) = []
        /\ timeouts (snd (resizeEffect dom p st)) = []
        /\ fst (resizeEffect dom p st) = onResize dom p st)
  /\ (forall h c s dom' container,
        canvasContainerRef dom' = Some container ->
        canvasRef dom' = true ->
        let st' := cells (fst (step h c p s (timeoutElapsed dom'))) in
        canvasCurrentWidth st' = clientWidth container
        /\ canvasCurrentHeight st' = roundedHeight dom' container
        /\ canvasWidth st'
           = Math.round
               (devicePixels dom' (clientWidth container))).
Proof.
  unfold resizeEffect. split; [| split].
  - intros Hs. rewrite Hs. simpl. repeat split; reflexivity.
  - intros Hs Ho. rewrite Hs, Ho. simpl. repeat split; reflexivity.
  - intros h c s dom' container Hc Hv. cbv zeta. cbn [step].
    destruct (commit_geometry dom' c p (cells s) (onResize dom' p (cells s)) [])
      as [Hw [Hh [Hcw _]]].
    destruct (commit dom' c p (cells s) (onResize dom' p (cells s)) [])
      as [st2 out2].
    simpl in *. rewrite Hw, Hh, Hcw.
    unfold onResize. rewrite Hc, Hv. simpl. repeat split; reflexivity.
Qed.

Lemma resizeEffect_fallbacks_witness :
  timeouts (snd (resizeEffect dom_safari defaultProps
                   (initialState dom_safari defaultProps))) = [100; 500; 1000]
  /\ timeouts (snd (resizeEffect dom_no_observer defaultProps
                      (initialState dom_no_observer defaultProps))) = [].
Proof.
  split.
  - destruct (resizeEffect_fallbacks dom_safari defaultProps
                (initialState dom_safari defaultProps)) as [Hs _].
    destruct (Hs eq_refl) as [_ [_ [Ht _]]]. exact Ht.
  - destruct (resizeEffect_fallbacks dom_no_observer defaultProps
                (initialState dom_no_observer defaultProps)) as [_ [Hf _]].
    destruct (Hf eq_refl eq_refl) as [_ [_ [Ht _]]]. exact Ht.
Defined.

(** ** From a resize to the next extraction *)

Lemma steps_app (h : Handler) (c : Controls) (p : Props)
  (es1 es2 : list Event) (s : Pipeline) :
  steps h c p s (es1 ++ es2)
  = (fst (steps h c p (fst (steps h c p s es1)) es2),
     snd (steps h c p s es1)
       ++ snd (steps h c p (fst (steps h c p s es1)) es2)).
Proof.
  revert s. induction es1 as [| e es1 IH]; intros s; simpl.
  - destruct (steps h c p s es2). reflexivity.
  - destruct (step h c p s e) as [s1 out1]. rewrite IH.
    destruct (steps h c p s1 es1) as [s2 out2]. simpl.
    rewrite app_assoc. reflexivity.
Qed.

Lemma extractionEffect_while_resizing
  (dom : Dom) (c : Controls) (p : Props) (st : State) :
  isResizing st = true -> extractionEffect dom c p st = (st, []).
Proof.
  intros Hr. unfold extractionEffect.
  destruct (bufferFromRecordedBlob c); [| reflexivity].
  rewrite Hr, orb_true_r. reflexivity.
Qed.

Lemma handlerBody_static (h : Handler) (dom : Dom) (c : Controls) (p : Props)
  (st : State) :
  isAvailableRecordedAudio c = true ->
  handlerBody h dom c p st
  = (setIsResizing true (setScreenWidth (innerWidth dom) st),
     [call_setIsProcessingOnResize true; call_debouncedOnResize]).
Proof.
  intros Ha. destruct h; simpl; unfold handleResize, handleResize_Safari;
    try rewrite Ha; reflexivity.
Qed.

Lemma step_notified_static (h : Handler) (c : Controls) (p : Props)
  (s : Pipeline) (dom : Dom) :
  isAvailableRecordedAudio c = true ->
  step h c p s (resizeNotified dom)
  = ({| cells := setIsResizing true (setScreenWidth (innerWidth dom) (cells s));
        debouncePending := true |},
     [call_setIsProcessingOnResize true; call_debouncedOnResize]).
Proof.
  intros Ha. unfold step. rewrite (handlerBody_static h dom c p _ Ha).
  unfold commit.
  rewrite extractionEffect_while_resizing by reflexivity.
  destruct (extractionDepsChanged _ _); simpl; rewrite ?app_nil_r; reflexivity.
Qed.

(** During a burst in static mode nothing is extracted and the geometry
    is not touched; once the burst has begun, the component is resizing
    and the debounce timer is pending. *)
Lemma burst_static (h : Handler) (c : Controls) (p : Props) (doms : list Dom) :
  isAvailableRecordedAudio c = true ->
  forall s : Pipeline,
    let s' := fst (steps h c p s (map resizeNotified doms)) in
    let out := snd (steps h c p s (map resizeNotified doms)) in
    extractions out = []
    /\ List.length (debouncedCalls out) = List.length doms
    /\ canvasCurrentWidth (cells s') = canvasCurrentWidth (cells s)
    /\ canvasCurrentHeight (cells s') = canvasCurrentHeight (cells s)
    /\ canvasWidth (cells s') = canvasWidth (cells s)
    /\ (doms <> [] ->
          isResizing (cells s') = true /\ debouncePending s' = true).
Proof.
  intros Ha. induction doms as [| dom doms IH]; intros s s' out; subst s' out.
  - simpl. split; [reflexivity |]. split; [reflexivity |].
    split; [reflexivity |]. split; [reflexivity |].
    split; [reflexivity |]. intros Hne. contradiction Hne. reflexivity.
  - cbn [map steps]. rewrite (step_notified_static h c p s dom Ha).
    specialize (IH {| cells := setIsResizing true
                                 (setScreenWidth (innerWidth dom) (cells s));
                      debouncePending := true |}).
    cbv zeta in IH.
    destruct (steps h c p _ (map resizeNotified doms)) as [s2 out2] eqn:Hsteps.
    simpl in IH. simpl.
    destruct IH as [Hex [Hdeb [Hw [Hh [Hcw Hres]]]]].
    unfold extractions, debouncedCalls in *. simpl.
    split; [exact Hex |]. split; [f_equal; exact Hdeb |].
    split; [exact Hw |]. split; [exact Hh |]. split; [exact Hcw |].
    intros _. destruct doms as [| d ds].
    + simpl in Hsteps. inversion Hsteps; subst s2 out2. split; reflexivity.
    + apply Hres. discriminate.
Qed.

(** C8: when a resize notification reaches the [ResizeObserver] callback
    (or the window handler of the last branch) and a recorded audio is
    available, the handler raises the resize-processing flag, marks the
    component as resizing and calls the debounced [onResize], leaving the
    geometry as it is; when none is available it recomputes the geometry
    at once and schedules nothing.  A burst of notifications in static
    mode, followed by the close of the debounce window, starts exactly
    one extraction, for the geometry read at that moment. *)
Theorem resize_notification_policy
  (h : Handler) (c : Controls) (p : Props) :
  h <> handleResizeSafari ->
  (isAvailableRecordedAudio c = true ->
     forall s dom,
       let s' := fst (step h c p s (resizeNotified dom)) in
       let out := snd (step h c p s (resizeNotified dom)) in
       out = [call_setIsProcessingOnResize true; call_debouncedOnResize]
       /\ debouncePending s' = true
       /\ isResizing (cells s') = true
       /\ canvasCurrentWidth (cells s') = canvasCurrentWidth (cells s)
       /\ canvasCurrentHeight (cells s') = canvasCurrentHeight (cells s)
       /\ canvasWidth (cells s') = canvasWidth (cells s))
  /\ (isAvailableRecordedAudio c = false ->
        forall st dom,
          handlerBody h dom c p st
          = (onResize dom p (setScreenWidth (innerWidth dom) st), [])
          /\ forall s,
               debouncePending (fst (step h c p s (resizeNotified dom)))
               = debouncePending s)
  /\ (isAvailableRecordedAudio c = true ->
        forall s doms dom' container channelData,
          doms <> [] ->
          bufferFromRecordedBlob c = Some channelData ->
          isRecordingInProgress c = false ->
          onlyRecording p = false ->
          canvasContainerRef dom' = Some container ->
          canvasRef dom' = true ->
          let burst := map resizeNotified doms ++ [debounceElapsed dom'] in
          exists job,
            extractions (snd (steps h c p s burst)) = [call_run job]
            /\ BarExtractor.bufferData job = channelData
            /\ BarExtractor.height job = roundedHeight dom' container
            /\ BarExtractor.width job
               = Math.round
                   (devicePixels dom' (clientWidth container))
            /\ isResizing (cells (fst (steps h c p s burst))) = false
            /\ debouncePending (fst (steps h c p s burst)) = false).
Proof.
  intros Hh. split; [| split].
  - intros Ha s dom s' out. subst s' out.
    rewrite (step_notified_static h c p s dom Ha). simpl.
    repeat split; reflexivity.
  - intros Ha st dom. split.
    + destruct h; simpl; unfold handleResize; try rewrite Ha;
        try reflexivity. contradiction Hh; reflexivity.
    + intros s. unfold step.
      assert (handlerBody h dom c p (cells s)
              = (onResize dom p (setScreenWidth (innerWidth dom) (cells s)), []))
        as Hb.
      { destruct h; simpl; unfold handleResize; try rewrite Ha;
          try reflexivity. contradiction Hh; reflexivity. }
      rewrite Hb.
      destruct (commit dom c p (cells s) _ []) as [st2 out2]. reflexivity.
  - intros Ha s doms dom' container channelData Hne Hbuf Hrec Honly Hc Hv burst.
    subst burst. rewrite steps_app.
    pose proof (burst_static h c p doms Ha s) as Hburst. cbv zeta in Hburst.
    destruct (steps h c p s (map resizeNotified doms)) as [s1 out1].
    simpl fst in *. simpl snd in *.
    destruct Hburst as [Hex [_ [_ [_ [_ Hres]]]]].
    destruct (Hres Hne) as [Hr Hp].
    cbn [steps step]. rewrite Hp.
    unfold commit.
    assert (extractionDepsChanged (cells s1) (onResize dom' p (cells s1)) = true)
      as Hch.
    { unfold extractionDepsChanged, onResize. rewrite Hc, Hv. simpl.
      rewrite Hr. simpl. rewrite !andb_false_r. reflexivity. }
    rewrite Hch.
    unfold extractionEffect. rewrite Hbuf, Hv, Hrec, Honly.
    assert (isResizing (onResize dom' p (cells s1)) = false) as Hr'.
    { unfold onResize. rewrite Hc, Hv. reflexivity. }
    rewrite Hr'. simpl.
    eexists. unfold extractions in *. rewrite filter_app, Hex. simpl.
    split; [reflexivity |]. simpl.
    unfold onResize. rewrite Hc, Hv. simpl.
    repeat split; reflexivity.
Qed.

Lemma resize_notification_policy_witness :
  exists job,
    extractions
      (snd (steps resizeObserverCallback recordedControls defaultProps
              settledPipeline
              (map resizeNotified [dom_820; dom_820; dom_820]
               ++ [debounceElapsed dom_820])))
    = [call_run job]
    /\ BarExtractor.width job = 1640.
Proof.
  destruct (resize_notification_policy resizeObserverCallback
              recordedControls defaultProps) as [_ [_ Hburst]];
    [discriminate |].
  destruct (Hburst eq_refl settledPipeline [dom_820; dom_820; dom_820] dom_820
              {| clientWidth := 820; clientHeight := 200 |}
              [(1 # 2)%Q; (-1 # 4)%Q; (3 # 4)%Q; 0%Q])
    as [job [Hruns [_ [_ [Hwidth _]]]]];
    try reflexivity; [discriminate |].
  exists job. split; [exact Hruns | exact Hwidth].
Defined.

(** ** Bar Extractor *)

(** The chunks of the model are a partition of the buffer into
    contiguous pieces whose lengths differ by at most one. *)

Lemma firstn_split_at {A : Type} (l : list A) (a b : nat) :
  (a <= b)%nat ->
  firstn b l = firstn a l ++ firstn (b - a) (skipn a l).
Proof.
  intros Hab.
  rewrite <- (firstn_skipn a (firstn b l)) at 1.
  rewrite firstn_firstn, Nat.min_l by exact Hab.
  f_equal. rewrite firstn_skipn_comm. f_equal. f_equal. lia.
Qed.

Lemma chunkStart_mono (len n i : nat) :
  (BarExtractor.chunkStart len n i <= BarExtractor.chunkStart len n (S i))%nat.
Proof.
  unfold BarExtractor.chunkStart. apply Nat.Div0.div_le_mono. lia.
Qed.

Lemma chunkStart_end (len n : nat) :
  (0 < n)%nat -> BarExtractor.chunkStart len n n = len.
Proof.
  intros Hn. unfold BarExtractor.chunkStart.
  rewrite Nat.mul_comm. apply Nat.div_mul. lia.
Qed.

Lemma chunks_prefix (samples : list Q) (n k : nat) :
  concat (map (BarExtractor.chunk samples n) (seq 0 k))
  = firstn (BarExtractor.chunkStart (List.length samples) n k) samples.
Proof.
  induction k as [| k IH].
  - unfold BarExtractor.chunkStart.
    rewrite Nat.mul_0_l, Nat.Div0.div_0_l. reflexivity.
  - rewrite seq_S, map_app, concat_app, IH. simpl. rewrite app_nil_r.
    unfold BarExtractor.chunk.
    symmetry. apply firstn_split_at. apply chunkStart_mono.
Qed.

Lemma chunks_partition (samples : list Q) (n : nat) :
  (0 < n)%nat ->
  concat (map (BarExtractor.chunk samples n) (seq 0 n)) = samples.
Proof.
  intros Hn. rewrite chunks_prefix, chunkStart_end by exact Hn.
  apply firstn_all.
Qed.

Lemma chunk_length (samples : list Q) (n i : nat) :
  (i < n)%nat ->
  let len := List.length samples in
  (len / n <= List.length (BarExtractor.chunk samples n i) <= len / n + 1)%nat.
Proof.
  intros Hi len. unfold BarExtractor.chunk. fold len.
  rewrite length_firstn, length_skipn. fold len.
  unfold BarExtractor.chunkStart.
  assert (S i * len / n <= len)%nat as Hend.
  { apply Nat.Div0.div_le_upper_bound. nia. }
  pose proof (Nat.div_mod_eq (i * len) n) as Ha.
  pose proof (Nat.div_mod_eq (S i * len) n) as Hb.
  pose proof (Nat.div_mod_eq len n) as Hc.
  pose proof (Nat.mod_upper_bound (i * len) n ltac:(lia)) as Ha'.
  pose proof (Nat.mod_upper_bound (S i * len) n ltac:(lia)) as Hb'.
  pose proof (Nat.mod_upper_bound len n ltac:(lia)) as Hc'.
  nia.
Qed.

Lemma getBarsData_nth (p : BarExtractor.GetBarsDataParams) (i : nat)
  (b : BarsData) :
  nth_error (BarExtractor.getBarsData p) i = Some b ->
  b = BarExtractor.bar (BarExtractor.height p)
        (BarExtractor.chunk (BarExtractor.bufferData p)
           (BarExtractor.barCount p) i).
Proof.
  unfold BarExtractor.getBarsData.
  destruct (BarExtractor.bufferData p) as [| s rest] eqn:Hbuf.
  - destruct i; discriminate.
  - intros Hnth. rewrite nth_error_map in Hnth.
    destruct (nth_error (seq 0 (BarExtractor.barCount p)) i) as [k |] eqn:Hk;
      [| discriminate].
    apply nth_error_nth with (d := 0%nat) in Hk as Hk'.
    assert (i < BarExtractor.barCount p)%nat as Hlt.
    { rewrite <- (length_seq (BarExtractor.barCount p) 0).
      apply nth_error_Some. congruence. }
    rewrite seq_nth in Hk' by exact Hlt. simpl in Hk'. subst k.
    simpl in Hnth. congruence.
Qed.

(** The two rules of section 4.1 cannot both hold of one extractor: a
    function whose output always has [floor (w / unit)] bars does not
    return the empty sequence for the empty buffer of [emptyJob]. *)
Remark length_contract_excludes_empty_rule
  (extract : BarExtractor.GetBarsDataParams -> list BarsData) :
  (forall p, List.length (extract p) = BarExtractor.barCount p) ->
  extract emptyJob <> [].
Proof.
  intros Hlen Hnil. specialize (Hlen emptyJob). rewrite Hnil in Hlen.
  vm_compute in Hlen. discriminate Hlen.
Qed.

Lemma bar_of_empty_chunk (h : Z) :
  (amplitudeAboveAxis (BarExtractor.bar h []) == 0
   /\ amplitudeBelowAxis (BarExtractor.bar h []) == 0)%Q.
Proof.
  unfold BarExtractor.bar, BarExtractor.scale. simpl.
  split; apply Qmult_0_l.
Qed.

(** C5: degenerate inputs are answered, not refused.  [getBarsData] is a
    total function; an empty buffer gives the empty sequence; a width of
    0 gives the empty sequence; every bar whose chunk has size 0 has
    amplitude 0 on both sides of the axis; and when more bars are asked
    for than there are samples, such bars exist: the chunk of the first
    bar is empty. *)
Theorem getBarsData_degenerate (p : BarExtractor.GetBarsDataParams) :
  (BarExtractor.bufferData p = [] -> BarExtractor.getBarsData p = [])
  /\ (BarExtractor.width p = 0 -> BarExtractor.getBarsData p = [])
  /\ (forall i b,
        nth_error (BarExtractor.getBarsData p) i = Some b ->
        BarExtractor.chunk (BarExtractor.bufferData p)
          (BarExtractor.barCount p) i = [] ->
        (amplitudeAboveAxis b == 0 /\ amplitudeBelowAxis b == 0)%Q)
  /\ ((List.length (BarExtractor.bufferData p) < BarExtractor.barCount p)%nat ->
        BarExtractor.chunk (BarExtractor.bufferData p)
          (BarExtractor.barCount p) 0 = []).
Proof.
  split; [| split; [| split]].
  - intros Hbuf. unfold BarExtractor.getBarsData. rewrite Hbuf. reflexivity.
  - intros Hw. unfold BarExtractor.getBarsData, BarExtractor.barCount.
    rewrite Hw. simpl. destruct (BarExtractor.bufferData p); reflexivity.
  - intros i b Hnth Hchunk.
    rewrite (getBarsData_nth p i b Hnth), Hchunk.
    apply bar_of_empty_chunk.
  - intros Hlt. unfold BarExtractor.chunk, BarExtractor.chunkStart.
    rewrite Nat.mul_0_l, Nat.mul_1_l.
    rewrite (Nat.div_small _ _ Hlt). reflexivity.
Qed.

Lemma getBarsData_degenerate_witness :
  BarExtractor.getBarsData emptyJob = []
  /\ (amplitudeAboveAxis (BarExtractor.bar 200 []) == 0)%Q
  /\ BarExtractor.chunk (BarExtractor.bufferData fourSampleJob) 25 0 = [].
Proof.
  split; [| split].
  - destruct (getBarsData_degenerate emptyJob) as [Hempty _].
    exact (Hempty eq_refl).
  - destruct (getBarsData_degenerate fourSampleJob) as [_ [_ [Hzero _]]].
    destruct (Hzero 0%nat (BarExtractor.bar 200 []) eq_refl eq_refl)
      as [Habove _].
    exact Habove.
  - destruct (getBarsData_degenerate fourSampleJob) as [_ [_ [_ Hfirst]]].
    apply Hfirst. vm_compute. lia.
Defined.

(** ** Blob Renderer *)






(** On a surface that is a whole ten pitches wide, a trailing gap
    behind the last bar, the left edge of bar 4 stands for second 4
    exactly and the boundary bar counts as played. *)
Remark drawByBlob_ten_pitches_wide :
  map BlobRenderer.fillStyle (BlobRenderer.drawByBlob tenBars)
  = repeat "#FFFFFF"%string 5 ++ repeat "#5e5e5e"%string 5.
Proof. vm_compute. reflexivity. Qed.

(** ** Offload Coordinator *)

Lemma matchesLatest_same (c : OffloadCoordinator.Coordinator)
  (job : BarExtractor.GetBarsDataParams) :
  OffloadCoordinator.latest c = Some job ->
  OffloadCoordinator.matchesLatest c job = true.
Proof.
  intros Hl. unfold OffloadCoordinator.matchesLatest. rewrite Hl.
  destruct (BarExtractor.GetBarsDataParams_eq_dec job job);
    [reflexivity | contradiction].
Qed.

Lemma matchesLatest_other (c : OffloadCoordinator.Coordinator)
  (job other : BarExtractor.GetBarsDataParams) :
  OffloadCoordinator.latest c = Some job ->
  other <> job ->
  OffloadCoordinator.matchesLatest c other = false.
Proof.
  intros Hl Hne. unfold OffloadCoordinator.matchesLatest. rewrite Hl.
  destruct (BarExtractor.GetBarsDataParams_eq_dec job other);
    [| reflexivity].
  contradiction Hne. symmetry. assumption.
Qed.

(** C2: when job J2, whose parameters differ from those of J1, is
    submitted while J1 is still executing, then in whichever order the
    two jobs complete exactly one result reaches the completion callback
    and the result cell, the one extracted for the parameters of J2; the
    result of J1 is discarded. *)
Theorem supersession
  (J1 J2 : BarExtractor.GetBarsDataParams) (completions : list OffloadCoordinator.Event) :
  J1 <> J2 ->
  Permutation
    [OffloadCoordinator.messageReceived J1; OffloadCoordinator.messageReceived J2]
    completions ->
  let final :=
    OffloadCoordinator.steps OffloadCoordinator.initial
      (OffloadCoordinator.run J1 :: OffloadCoordinator.run J2 :: completions) in
  OffloadCoordinator.delivered final = [BarExtractor.getBarsData J2]
  /\ OffloadCoordinator.result final = BarExtractor.getBarsData J2.
Proof.
  intros Hne Hperm final. subst final.
  apply Permutation_length_2_inv in Hperm.
  unfold OffloadCoordinator.steps.
  destruct Hperm as [Hc | Hc]; subst completions; cbn [fold_left].
  - cbn [OffloadCoordinator.step].
    rewrite (matchesLatest_other _ J2 J1) by (simpl; congruence).
    cbn [OffloadCoordinator.step].
    rewrite (matchesLatest_same _ J2) by reflexivity.
    split; reflexivity.
  - cbn [OffloadCoordinator.step].
    rewrite (matchesLatest_same _ J2) by reflexivity.
    cbn [OffloadCoordinator.step].
    rewrite (matchesLatest_other _ J2 J1) by (simpl; congruence).
    split; reflexivity.
Qed.

Lemma supersession_witness :
  OffloadCoordinator.delivered
    (OffloadCoordinator.steps OffloadCoordinator.initial
       [OffloadCoordinator.run job_400; OffloadCoordinator.run job_800;
        OffloadCoordinator.messageReceived job_800;
        OffloadCoordinator.messageReceived job_400])
  = [BarExtractor.getBarsData job_800].
Proof.
  destruct (supersession job_400 job_800
              [OffloadCoordinator.messageReceived job_800;
               OffloadCoordinator.messageReceived job_400])
    as [Hdelivered _].
  - discriminate.
  - apply perm_swap.
  - exact Hdelivered.
Defined.

(** * Further properties of the component *)

(** ** Live waveform: the rhythm of the draws *)

Lemma liveStreamEffect_due
  (draw : LiveStreamRenderer.DrawByLiveStreamParams -> LiveStreamRenderer.Cells)
  (dom : Dom) (c : Controls) (p : Props) (st : State) :
  canvasRef dom = true ->
  commitDue c p st = true ->
  liveStreamEffect draw dom c p st
  = (let st0 :=
       setIndexSpeedRef
         (if (List.length (audioData c) =? 0)%nat
          then formattedSpeed p else 0) st in
     setIndexSpeedRef
       (indexSpeedRef st0 + 1)
       (setCells (draw (liveStreamArgs c p st0)) st0),
     [call_drawByLiveStream
        (liveStreamArgs c p
           (setIndexSpeedRef
              (if (List.length (audioData c) =? 0)%nat
               then formattedSpeed p else 0) st))]).
Proof.
  intros Hv Hdue. unfold liveStreamEffect. rewrite Hv, Hdue. reflexivity.
Qed.

Lemma liveStreamEffect_not_due
  (draw : LiveStreamRenderer.DrawByLiveStreamParams -> LiveStreamRenderer.Cells)
  (dom : Dom) (c : Controls) (p : Props) (st : State) :
  canvasRef dom = true ->
  commitDue c p st = false ->
  liveStreamEffect draw dom c p st
  = (setIndexSpeedRef (indexSpeedRef st + 1) st, []).
Proof.
  intros Hv Hdue. unfold liveStreamEffect. rewrite Hv, Hdue. reflexivity.
Qed.

Lemma commitDue_nonempty (c : Controls) (p : Props) (st : State) :
  audioData c <> [] ->
  commitDue c p st = (formattedSpeed p <=? indexSpeedRef st).
Proof.
  intros Hne. unfold commitDue.
  destruct (audioData c); [contradiction |]. simpl. apply orb_false_r.
Qed.

(** X1: throttling.  With the canvas attached, a speed of at least 1 and
    a feed that is never empty, a run of [n] updates that starts with
    the speed counter at [k >= 1] draws [(n + min k speed - 1) / speed]
    times: once every [speed] updates, the first draw coming when the
    counter reaches [speed].  The counter stays at 1 or above. *)
Theorem liveFrames_draw_every_speed_updates
  (draw : LiveStreamRenderer.DrawByLiveStreamParams -> LiveStreamRenderer.Cells)
  (dom : Dom) (p : Props) (feed : list Controls) (st : State) :
  canvasRef dom = true ->
  1 <= formattedSpeed p ->
  Forall (fun c => audioData c <> []) feed ->
  1 <= indexSpeedRef st ->
  Z.of_nat (List.length (liveDraws (snd (liveFrames draw dom p st feed))))
  = (Z.of_nat (List.length feed)
     + Z.min (indexSpeedRef st) (formattedSpeed p) - 1)
    / formattedSpeed p
  /\ 1 <= indexSpeedRef (fst (liveFrames draw dom p st feed)).
Proof.
  intros Hv Hs Hfeed. revert st.
  induction Hfeed as [| c rest Hc Hrest IH]; intros st Hk.
  - simpl. split; [| exact Hk].
    symmetry. apply Z.div_small. lia.
  - cbn [liveFrames].
    pose proof (commitDue_nonempty c p st Hc) as Hdue.
    destruct (Z.leb_spec (formattedSpeed p) (indexSpeedRef st)) as [Hle | Hlt].
    + rewrite (liveStreamEffect_due draw dom c p st Hv Hdue).
      destruct (audioData c) as [| a0 feed0] eqn:Hfeed0; [contradiction |].
      cbn [List.length Nat.eqb].
      set (st1 := setIndexSpeedRef _ (setCells _ _)).
      assert (indexSpeedRef st1 = 1) as H1 by reflexivity.
      specialize (IH st1). rewrite H1 in IH.
      destruct (liveFrames draw dom p st1 rest) as [st2 calls2].
      destruct (IH ltac:(lia)) as [IHn IHk]. cbn [fst snd] in *.
      split; [| exact IHk].
      unfold liveDraws in *.
      cbn [app filter isLiveDrawCall List.length].
      rewrite !Nat2Z.inj_succ, IHn.
      rewrite (Z.min_r (indexSpeedRef st)) by lia.
      rewrite (Z.min_l 1) by lia.
      replace (Z.succ (Z.of_nat (List.length rest)) + formattedSpeed p - 1)
        with (Z.of_nat (List.length rest) + 1 - 1 + 1 * formattedSpeed p)
        by lia.
      rewrite Z.div_add by lia. lia.
    + rewrite (liveStreamEffect_not_due draw dom c p st Hv Hdue).
      set (st1 := setIndexSpeedRef _ st).
      assert (indexSpeedRef st1 = indexSpeedRef st + 1) as H1 by reflexivity.
      specialize (IH st1). rewrite H1 in IH.
      destruct (liveFrames draw dom p st1 rest) as [st2 calls2].
      destruct (IH ltac:(lia)) as [IHn IHk]. cbn [fst snd] in *.
      split; [| exact IHk].
      cbn [app List.length]. rewrite IHn, Nat2Z.inj_succ.
      rewrite (Z.min_l (indexSpeedRef st + 1)) by lia.
      rewrite (Z.min_l (indexSpeedRef st)) by lia.
      f_equal. lia.
Qed.

Lemma liveFrames_draw_every_speed_updates_witness :
  Z.of_nat
    (List.length
       (liveDraws
          (snd (liveFrames appendingRenderer dom_dpr_3_2 defaultProps
                  throttledState (repeat recordingControls 7)))))
  = 2.
Proof.
  destruct (liveFrames_draw_every_speed_updates appendingRenderer dom_dpr_3_2
              defaultProps (repeat recordingControls 7) throttledState)
    as [Hcount _].
  - reflexivity.
  - vm_compute. discriminate.
  - repeat constructor; discriminate.
  - vm_compute. discriminate.
  - exact Hcount.
Defined.

(** X2: the effect draws when it next runs.  In the state of the first
    render, and in the state a geometry recompute leaves, the next run
    of the layout effect draws, whatever makes it run (an update of the
    feed, or the render that a changed [canvasWidth] brings about) and
    whatever the feed holds.  [onResize] belongs to the render that
    subscribed it and leaves the counter at the speed of that render, so
    this holds as long as the speed has not been raised since. *)
Theorem layout_effect_draws_after_first_render_and_onResize
  (draw : LiveStreamRenderer.DrawByLiveStreamParams -> LiveStreamRenderer.Cells)
  (dom : Dom) (c : Controls) (p : Props) :
  canvasRef dom = true ->
  (exists a,
     snd (liveStreamEffect draw dom c p (initialState dom p))
     = [call_drawByLiveStream a])
  /\ (forall dom0 p0 container st,
        canvasContainerRef dom0 = Some container ->
        canvasRef dom0 = true ->
        formattedSpeed p <= formattedSpeed p0 ->
        exists a,
          snd (liveStreamEffect draw dom c p (onResize dom0 p0 st))
          = [call_drawByLiveStream a]).
Proof.
  intros Hv. split.
  - assert (commitDue c p (initialState dom p) = true) as Hdue.
    { unfold commitDue, initialState. simpl. rewrite Z.leb_refl. reflexivity. }
    rewrite (liveStreamEffect_due draw dom c p _ Hv Hdue).
    eexists. reflexivity.
  - intros dom0 p0 container st Hc Hv0 Hspeed.
    assert (commitDue c p (onResize dom0 p0 st) = true) as Hdue.
    { unfold commitDue, onResize. rewrite Hc, Hv0.
      cbn [indexSpeedRef].
      apply Z.leb_le in Hspeed. rewrite Hspeed. reflexivity. }
    rewrite (liveStreamEffect_due draw dom c p _ Hv Hdue).
    eexists. reflexivity.
Qed.

Lemma layout_effect_draws_after_first_render_and_onResize_witness :
  exists a,
    snd (liveStreamEffect appendingRenderer dom_800 recordingControls
           defaultProps (onResize dom_820 defaultProps throttledState))
    = [call_drawByLiveStream a].
Proof.
  destruct (layout_effect_draws_after_first_render_and_onResize
              appendingRenderer dom_800 recordingControls defaultProps eq_refl)
    as [_ Hafter].
  apply (Hafter dom_820 defaultProps
           {| clientWidth := 820; clientHeight := 200 |} throttledState).
  - reflexivity.
  - reflexivity.
  - vm_compute. discriminate.
Defined.

(** X3: an empty feed is never throttled.  With the canvas attached and
    nothing in the feed, an update draws whatever the speed counter
    says, and it leaves the counter above the threshold, so that the
    update after it draws as well. *)
Theorem empty_feed_always_draws
  (draw : LiveStreamRenderer.DrawByLiveStreamParams -> LiveStreamRenderer.Cells)
  (dom : Dom) (c : Controls) (p : Props) (st : State) :
  canvasRef dom = true ->
  audioData c = [] ->
  (exists a,
     snd (liveStreamEffect draw dom c p st) = [call_drawByLiveStream a])
  /\ indexSpeedRef (fst (liveStreamEffect draw dom c p st))
     = formattedSpeed p + 1
  /\ forall c',
       commitDue c' p (fst (liveStreamEffect draw dom c p st)) = true.
Proof.
  intros Hv Hempty.
  assert (commitDue c p st = true) as Hdue.
  { unfold commitDue. rewrite Hempty. simpl. apply orb_true_r. }
  rewrite (liveStreamEffect_due draw dom c p st Hv Hdue).
  rewrite Hempty. simpl.
  split; [eexists; reflexivity |]. split; [reflexivity |].
  intros c'. unfold commitDue. simpl.
  assert ((formattedSpeed p <=? formattedSpeed p + 1) = true) as Hle
    by (apply Z.leb_le; lia).
  rewrite Hle. reflexivity.
Qed.

Lemma empty_feed_always_draws_witness :
  indexSpeedRef
    (fst (liveStreamEffect appendingRenderer dom_dpr_3_2 silentControls
            defaultProps throttledState))
  = 4.
Proof.
  destruct (empty_feed_always_draws appendingRenderer dom_dpr_3_2
              silentControls defaultProps throttledState eq_refl eq_refl)
    as [_ [Hcounter _]].
  exact Hcounter.
Defined.

(** ** Resize pipeline: what every run of events keeps *)

Lemma extractionEffect_run_job
  (dom : Dom) (c : Controls) (p : Props) (st : State)
  (job : BarExtractor.GetBarsDataParams) :
  In (call_run job) (snd (extractionEffect dom c p st)) ->
  bufferFromRecordedBlob c = Some (BarExtractor.bufferData job)
  /\ canvasRef dom = true
  /\ isRecordingInProgress c = false
  /\ isResizing st = false
  /\ onlyRecording p = false
  /\ BarExtractor.height job = canvasCurrentHeight st
  /\ BarExtractor.width job = canvasWidth st.
Proof.
  unfold extractionEffect.
  destruct (bufferFromRecordedBlob c) as [channelData |]; [| intros []].
  destruct (canvasRef dom), (isRecordingInProgress c), (isResizing st);
    simpl; try (intros []).
  destruct (onlyRecording p); simpl.
  - intros [H | []]. discriminate H.
  - intros [H | []]. inversion H; subst job; clear H. simpl.
    repeat split; reflexivity.
Qed.

Lemma handlerBody_no_run (h : Handler) (dom : Dom) (c : Controls) (p : Props)
  (st : State) (job : BarExtractor.GetBarsDataParams) :
  ~ In (call_run job) (snd (handlerBody h dom c p st)).
Proof.
  destruct h; simpl; unfold handleResize, handleResize_Safari;
    try destruct (isAvailableRecordedAudio c); simpl;
    intros H; repeat (destruct H as [H | H]; try discriminate H); exact H.
Qed.

Lemma commit_run_origin (dom : Dom) (c : Controls) (p : Props)
  (before after : State) (calls : list Effect)
  (job : BarExtractor.GetBarsDataParams) :
  In (call_run job) (snd (commit dom c p before after calls)) ->
  In (call_run job) calls
  \/ In (call_run job) (snd (extractionEffect dom c p after)).
Proof.
  unfold commit. destruct (extractionDepsChanged before after).
  - destruct (extractionEffect dom c p after) as [st more]. simpl.
    intros H. apply in_app_or in H. exact H.
  - simpl. intros H. left. exact H.
Qed.

Lemma onResize_height_even (dom : Dom) (p : Props) (st : State) :
  Z.even (canvasCurrentHeight st) = true ->
  Z.even (canvasCurrentHeight (onResize dom p st)) = true.
Proof.
  intros Hev. unfold onResize.
  destruct (canvasContainerRef dom) as [container |]; [| exact Hev].
  destruct (canvasRef dom); [| exact Hev].
  simpl. apply roundedHeight_even.
Qed.

Lemma handlerBody_height_even (h : Handler) (dom : Dom) (c : Controls)
  (p : Props) (st : State) :
  Z.even (canvasCurrentHeight st) = true ->
  Z.even (canvasCurrentHeight (fst (handlerBody h dom c p st))) = true.
Proof.
  intros Hev.
  destruct h; simpl; unfold handleResize, handleResize_Safari;
    try destruct (isAvailableRecordedAudio c); simpl; try exact Hev;
    apply onResize_height_even; exact Hev.
Qed.

(** One event: the state it leaves has the handler's geometry, and a job
    it submits was built by the extraction effect from that state. *)
Lemma step_run_origin (h : Handler) (c : Controls) (p : Props) (s : Pipeline)
  (e : Event) (job : BarExtractor.GetBarsDataParams) :
  In (call_run job) (snd (step h c p s e)) ->
  exists dom st,
    In (call_run job) (snd (extractionEffect dom c p st))
    /\ canvasCurrentHeight st = canvasCurrentHeight (cells (fst (step h c p s e))).
Proof.
  destruct e as [dom | dom | dom]; cbn [step].
  - destruct (handlerBody h dom c p (cells s)) as [st1 calls] eqn:Hb.
    pose proof (commit_run_origin dom c p (cells s) st1 calls job) as Ho.
    pose proof (commit_geometry dom c p (cells s) st1 calls) as Hg.
    destruct (commit dom c p (cells s) st1 calls) as [st2 out].
    cbn [fst snd cells] in *. intros Hin.
    destruct (Ho Hin) as [Hc | He].
    + exfalso. apply (handlerBody_no_run h dom c p (cells s) job).
      rewrite Hb. exact Hc.
    + exists dom, st1. split; [exact He |].
      destruct Hg as [_ [Hh _]]. symmetry. exact Hh.
  - destruct (debouncePending s); [| intros []].
    pose proof (commit_run_origin dom c p (cells s)
                  (onResize dom p (cells s)) [] job) as Ho.
    pose proof (commit_geometry dom c p (cells s)
                  (onResize dom p (cells s)) []) as Hg.
    destruct (commit dom c p (cells s) (onResize dom p (cells s)) [])
      as [st2 out].
    cbn [fst snd cells] in *. intros Hin.
    destruct (Ho Hin) as [[] | He].
    exists dom, (onResize dom p (cells s)). split; [exact He |].
    destruct Hg as [_ [Hh _]]. symmetry. exact Hh.
  - pose proof (commit_run_origin dom c p (cells s)
                  (onResize dom p (cells s)) [] job) as Ho.
    pose proof (commit_geometry dom c p (cells s)
                  (onResize dom p (cells s)) []) as Hg.
    destruct (commit dom c p (cells s) (onResize dom p (cells s)) [])
      as [st2 out].
    cbn [fst snd cells] in *. intros Hin.
    destruct (Ho Hin) as [[] | He].
    exists dom, (onResize dom p (cells s)). split; [exact He |].
    destruct Hg as [_ [Hh _]]. symmetry. exact Hh.
Qed.

Lemma step_height_even (h : Handler) (c : Controls) (p : Props) (s : Pipeline)
  (e : Event) :
  Z.even (canvasCurrentHeight (cells s)) = true ->
  Z.even (canvasCurrentHeight (cells (fst (step h c p s e)))) = true.
Proof.
  intros Hev. destruct e as [dom | dom | dom]; cbn [step].
  - pose proof (handlerBody_height_even h dom c p (cells s) Hev) as Hh.
    destruct (handlerBody h dom c p (cells s)) as [st1 calls].
    pose proof (commit_geometry dom c p (cells s) st1 calls) as Hg.
    destruct (commit dom c p (cells s) st1 calls) as [st2 out].
    cbn [fst snd cells] in *. destruct Hg as [_ [Hg _]]. rewrite Hg. exact Hh.
  - destruct (debouncePending s); [| exact Hev].
    pose proof (commit_geometry dom c p (cells s)
                  (onResize dom p (cells s)) []) as Hg.
    destruct (commit dom c p (cells s) (onResize dom p (cells s)) [])
      as [st2 out].
    cbn [fst snd cells] in *. destruct Hg as [_ [Hg _]]. rewrite Hg.
    apply onResize_height_even. exact Hev.
  - pose proof (commit_geometry dom c p (cells s)
                  (onResize dom p (cells s)) []) as Hg.
    destruct (commit dom c p (cells s) (onResize dom p (cells s)) [])
      as [st2 out].
    cbn [fst snd cells] in *. destruct Hg as [_ [Hg _]]. rewrite Hg.
    apply onResize_height_even. exact Hev.
Qed.

(** X4: the canvas height stays even.  From a state whose canvas height
    is even (the first render has 0), whatever resize notifications,
    debounce expiries and timer expiries follow, on whatever browser
    state, the canvas height is even afterwards and every extraction job
    submitted on the way carries an even height. *)
Theorem canvas_height_stays_even
  (h : Handler) (c : Controls) (p : Props) (es : list Event) (s : Pipeline) :
  Z.even (canvasCurrentHeight (cells s)) = true ->
  Z.even (canvasCurrentHeight (cells (fst (steps h c p s es)))) = true
  /\ forall job,
       In (call_run job) (snd (steps h c p s es)) ->
       Z.even (BarExtractor.height job) = true.
Proof.
  revert s. induction es as [| e rest IH]; intros s Hev.
  - simpl. split; [exact Hev | intros job []].
  - cbn [steps].
    pose proof (step_height_even h c p s e Hev) as Hstep.
    pose proof (fun job => step_run_origin h c p s e job) as Horigin.
    destruct (step h c p s e) as [s1 out1]. cbn [fst snd] in *.
    destruct (IH s1 Hstep) as [IHev IHjobs].
    destruct (steps h c p s1 rest) as [s2 out2]. cbn [fst snd] in *.
    split; [exact IHev |].
    intros job Hin. apply in_app_or in Hin. destruct Hin as [Hin | Hin].
    + destruct (Horigin job Hin) as [dom [st [Hrun Hheight]]].
      destruct (extractionEffect_run_job dom c p st job Hrun)
        as [_ [_ [_ [_ [_ [Hjob _]]]]]].
      rewrite Hjob, Hheight. exact Hstep.
    + exact (IHjobs job Hin).
Qed.

Lemma canvas_height_stays_even_witness :
  Z.even
    (canvasCurrentHeight
       (cells
          (fst (steps resizeObserverCallback recordedControls defaultProps
                  {| cells := initialState dom_dpr_3_2 defaultProps;
                     debouncePending := false |}
                  [resizeNotified dom_dpr_3_2; debounceElapsed dom_dpr_3_2]))))
  = true.
Proof.
  destruct (canvas_height_stays_even resizeObserverCallback recordedControls
              defaultProps
              [resizeNotified dom_dpr_3_2; debounceElapsed dom_dpr_3_2]
              {| cells := initialState dom_dpr_3_2 defaultProps;
                 debouncePending := false |} eq_refl) as [Heven _].
  exact Heven.
Defined.

(** X5: no extraction while it cannot be used.  While a recording is in
    progress, or in recording-only mode, or without a decoded buffer, no
    run of resize notifications, debounce expiries and timer expiries
    submits an extraction job. *)
Theorem no_extraction_without_playable_buffer
  (h : Handler) (c : Controls) (p : Props) (es : list Event) (s : Pipeline) :
  isRecordingInProgress c = true
  \/ onlyRecording p = true
  \/ bufferFromRecordedBlob c = None ->
  extractions (snd (steps h c p s es)) = [].
Proof.
  intros Hguard.
  assert (forall job, ~ In (call_run job) (snd (steps h c p s es))) as Hnone.
  { revert s. induction es as [| e rest IH]; intros s job.
    - simpl. intros [].
    - cbn [steps].
      pose proof (step_run_origin h c p s e job) as Horigin.
      destruct (step h c p s e) as [s1 out1].
      specialize (IH s1 job).
      destruct (steps h c p s1 rest) as [s2 out2]. cbn [fst snd] in *.
      intros Hin. apply in_app_or in Hin. destruct Hin as [Hin | Hin].
      + destruct (Horigin Hin) as [dom [st [Hrun _]]].
        destruct (extractionEffect_run_job dom c p st job Hrun)
          as [Hbuf [_ [Hrec [_ [Honly _]]]]].
        destruct Hguard as [Hg | [Hg | Hg]]; congruence.
      + exact (IH Hin). }
  unfold extractions.
  induction (snd (steps h c p s es)) as [| e rest IH]; [reflexivity |].
  simpl. destruct e; simpl;
    try (apply IH; intros job Hin; apply (Hnone job); right; exact Hin).
  exfalso. apply (Hnone job). left. reflexivity.
Qed.

Lemma no_extraction_without_playable_buffer_witness :
  extractions
    (snd (steps handleResizeSafari recordingControls defaultProps
            settledPipeline
            [resizeNotified dom_820; debounceElapsed dom_820;
             timeoutElapsed dom_820]))
  = [].
Proof.
  apply no_extraction_without_playable_buffer. left. reflexivity.
Defined.

(** X6: Safari always defers.  The handler of the Safari branch does not
    look at whether a recorded audio is available: on every window
    resize, in live mode too, it raises the resize-processing flag,
    marks the component as resizing and leaves the geometry to the
    debounced recompute; no extraction starts on the notification. *)
Theorem safari_resize_always_debounces
  (c : Controls) (p : Props) (s : Pipeline) (dom : Dom) :
  step handleResizeSafari c p s (resizeNotified dom)
  = ({| cells := setIsResizing true (setScreenWidth (innerWidth dom) (cells s));
        debouncePending := true |},
     [call_setIsProcessingOnResize true; call_debouncedOnResize]).
Proof.
  unfold step. cbn [handlerBody]. unfold handleResize_Safari, commit.
  rewrite extractionEffect_while_resizing by reflexivity.
  destruct (extractionDepsChanged _ _); simpl; rewrite ?app_nil_r; reflexivity.
Qed.

(** X7: the preferred path at mount.  Outside Safari, with
    [ResizeObserver] present and the container attached, mounting only
    starts observing the container: it sets no timer, adds no window
    listener and does not recompute the geometry itself.  With the
    container not attached, it subscribes to the window's resize event
    instead, [ResizeObserver] or not, and the geometry stays as it was. *)
Theorem resizeEffect_observer_path (dom : Dom) (p : Props) (st : State) :
  isSafari dom = false ->
  (forall container,
     hasResizeObserver dom = true ->
     canvasContainerRef dom = Some container ->
     resizeEffect dom p st
     = (st, [call_ResizeObserver_observe resizeObserverCallback]))
  /\ (canvasContainerRef dom = None ->
      resizeEffect dom p st
      = (st, [call_window_addEventListener_resize handleResizeWindow])).
Proof.
  intros Hs. unfold resizeEffect. rewrite Hs. split.
  - intros container Ho Hc. rewrite Ho, Hc. reflexivity.
  - intros Hc. rewrite Hc, andb_false_r. unfold onResize. rewrite Hc.
    reflexivity.
Qed.

Lemma resizeEffect_observer_path_witness :
  resizeEffect dom_800 defaultProps (initialState dom_800 defaultProps)
  = (initialState dom_800 defaultProps,
     [call_ResizeObserver_observe resizeObserverCallback]).
Proof.
  destruct (resizeEffect_observer_path dom_800 defaultProps
              (initialState dom_800 defaultProps) eq_refl) as [Hobs _].
  exact (Hobs {| clientWidth := 800; clientHeight := 200 |} eq_refl eq_refl).
Defined.

(** ** Recorded waveform: when the blob is drawn *)

(** X8: the blob effect draws only what can be drawn.  [drawByBlob] is
    called with the bars of the worker's result cell, which are then not
    empty, and with the canvas width of the cells; never in
    recording-only mode, while the audio is processed or after a clear.
    After a clear the effect empties the result cell instead, and run
    again on the emptied cell it does nothing, so the reset settles. *)
Theorem blobEffect_draws_only_bars
  (dom : Dom) (c : Controls) (p : Props) (st : State) (bars : list BarsData) :
  (forall a,
     In (call_drawByBlob a) (blobEffect dom c p st bars) ->
     BlobRenderer.barsData a = bars
     /\ bars <> []
     /\ BlobRenderer.canvasWidth a = canvasWidth st
     /\ onlyRecording p = false
     /\ isProcessingRecordedAudio c = false
     /\ isCleared c = false)
  /\ (forall bars',
        In (call_setBarsData bars') (blobEffect dom c p st bars) ->
        isCleared c = true /\ blobEffect dom c p st bars' = [])
  /\ (List.length (blobEffect dom c p st bars) <= 1)%nat.
Proof.
  unfold blobEffect.
  destruct (onlyRecording p) eqn:Honly; simpl.
  { repeat split; try (intros ? []); lia. }
  destruct bars as [| b rest]; simpl.
  { repeat split; try (intros ? []); lia. }
  destruct (canvasRef dom); simpl.
  2:{ repeat split; try (intros ? []); lia. }
  destruct (isProcessingRecordedAudio c) eqn:Hproc; simpl.
  { repeat split; try (intros ? []); lia. }
  destruct (isCleared c) eqn:Hcl; simpl.
  - split; [| split].
    + intros a [H | []]. discriminate H.
    + intros bars' [H | []]. inversion H; subst bars'. split; reflexivity.
    + lia.
  - split; [| split].
    + intros a [H | []]. inversion H; subst a; clear H. simpl.
      repeat split; try reflexivity. discriminate.
    + intros bars' [H | []]. discriminate H.
    + lia.
Qed.

Lemma blobEffect_draws_only_bars_witness :
  blobEffect dom_800 clearedControls defaultProps
    (cells settledPipeline) threeBars
  = [call_setBarsData []]
  /\ blobEffect dom_800 clearedControls defaultProps
       (cells settledPipeline) []
     = [].
Proof.
  split; [reflexivity |].
  destruct (blobEffect_draws_only_bars dom_800 clearedControls defaultProps
              (cells settledPipeline) threeBars) as [_ [Hreset _]].
  destruct (Hreset [] (or_introl eq_refl)) as [_ Hsettled].
  exact Hsettled.
Defined.

(** ** The audio element behind the refs *)

(** X9: a forwarded ref hides the ref of the controls.  When a ref is
    forwarded to which no element is attached, the completion callback
    assigns no [src] and a click on the canvas seeks nothing, even if
    [controls.audioRef] has an element; without a forwarded ref both act
    on [controls.audioRef]. *)
Theorem forwarded_ref_hides_controls_ref
  (dom : Dom) (c : Controls) (st : State)
  (controlsAudioRef : option (MutableRefObject HTMLAudioElement))
  (clientX left : Q) :
  (forall ref,
     current ref = None ->
     fst (completedAudioProcessing c
            (audioElementRef (Some ref) controlsAudioRef))
     = Some ref
     /\ handleRecordedAudioCurrentTime dom c st
          (audioElementRef (Some ref) controlsAudioRef) clientX left
        = clickIgnored)
  /\ completedAudioProcessing c (audioElementRef None controlsAudioRef)
     = completedAudioProcessing c controlsAudioRef
  /\ handleRecordedAudioCurrentTime dom c st
       (audioElementRef None controlsAudioRef) clientX left
     = handleRecordedAudioCurrentTime dom c st controlsAudioRef clientX left.
Proof.
  split; [| split; reflexivity].
  intros [cur] Hcur. simpl in Hcur. subst cur. split; reflexivity.
Qed.

Lemma forwarded_ref_hides_controls_ref_witness :
  fst (completedAudioProcessing recordedControls
         (audioElementRef (Some detachedRef) controlsRef))
  = Some detachedRef.
Proof.
  destruct (forwarded_ref_hides_controls_ref dom_800 recordedControls
              (cells settledPipeline) controlsRef 0 0) as [Hhide _].
  destruct (Hhide detachedRef eq_refl) as [Hsrc _].
  exact Hsrc.
Defined.

(** ** Seeking and the progress indicator *)

Lemma Qlt_bool_iff (x y : Q) : Qlt_bool x y = true <-> (x < y)%Q.
Proof.
  unfold Qlt_bool. rewrite negb_true_iff. split.
  - intros H. apply Qnot_le_lt. intros Hle.
    apply Qle_bool_iff in Hle. congruence.
  - intros H. destruct (Qle_bool y x) eqn:Hle; [| reflexivity].
    apply Qle_bool_iff in Hle. exfalso. exact (Qlt_not_le _ _ H Hle).
Qed.



Lemma progressIndicator_rendered
  (shown timeShown : bool) (c : Controls) (st : State) (pi : ProgressIndicator) :
  progressIndicator shown timeShown c st = Some pi ->
  shown = true
  /\ isAvailableRecordedAudio c = true
  /\ isProcessingRecordedAudio c = false
  /\ ~ (duration c == 0)%Q
  /\ indicatorLeft pi
     = (if Qlt_bool (timeIndicatorStyleLeft c st)
                    (inject_Z (canvasCurrentWidth st) - 1)
        then timeIndicatorStyleLeft c st
        else (inject_Z (canvasCurrentWidth st) - 1)%Q)
  /\ indicatorTimeLeftClass pi
     = (if timeShown
        then Some
               (Qlt_bool
                  (inject_Z (canvasCurrentWidth st)
                   - currentAudioTime c * inject_Z (canvasCurrentWidth st)
                     / duration c)
                  70)
        else None).
Proof.
  unfold progressIndicator.
  destruct shown; simpl; [| discriminate].
  destruct (isAvailableRecordedAudio c); simpl; [| discriminate].
  destruct (isProcessingRecordedAudio c); simpl; [discriminate |].
  destruct (Qeq_bool (duration c) 0) eqn:Hd; simpl; [discriminate |].
  intros H. inversion H; subst pi; clear H. simpl.
  repeat split; try reflexivity.
  apply Qeq_bool_neq. exact Hd.
Qed.

(** X11: the progress indicator stays on the canvas.  Whenever it is
    rendered, the recording has a duration other than 0 and its [left]
    offset is at most [canvasCurrentWidth - 1]; for a positive duration
    and a canvas at least one pixel wide the offset is not negative
    while the playback time is not, and it is exactly
    [canvasCurrentWidth - 1] once the playback time has reached the
    duration. *)
Theorem progressIndicator_stays_on_canvas
  (shown timeShown : bool) (c : Controls) (st : State) (pi : ProgressIndicator) :
  progressIndicator shown timeShown c st = Some pi ->
  ~ (duration c == 0)%Q
  /\ (indicatorLeft pi <= inject_Z (canvasCurrentWidth st) - 1)%Q
  /\ ((0 < duration c)%Q -> (0 <= currentAudioTime c)%Q ->
      1 <= canvasCurrentWidth st ->
      (0 <= indicatorLeft pi)%Q)
  /\ ((0 < duration c)%Q -> (duration c <= currentAudioTime c)%Q ->
      0 <= canvasCurrentWidth st ->
      (indicatorLeft pi == inject_Z (canvasCurrentWidth st) - 1)%Q).
Proof.
  intros Hpi.
  destruct (progressIndicator_rendered shown timeShown c st pi Hpi)
    as [_ [_ [_ [Hd [Hleft _]]]]].
  rewrite Hleft. clear Hleft.
  set (W := inject_Z (canvasCurrentWidth st)).
  unfold timeIndicatorStyleLeft. fold W.
  set (r := (currentAudioTime c / duration c)%Q).
  split; [exact Hd |]. split; [| split].
  - destruct (Qlt_bool (r * W) (W - 1)) eqn:Hlt.
    + apply Qlt_bool_iff in Hlt. lra.
    + apply Qle_refl.
  - intros Hpos Hcur Hw.
    assert (1 <= W)%Q as HW.
    { unfold W. change 1%Q with (inject_Z 1). rewrite <- Zle_Qle. exact Hw. }
    assert (0 <= r)%Q as Hr.
    { unfold r. apply Qle_shift_div_l; [exact Hpos | lra]. }
    destruct (Qlt_bool (r * W) (W - 1)).
    + apply Qmult_le_0_compat; lra.
    + lra.
  - intros Hpos Hcur Hw.
    assert (0 <= W)%Q as HW.
    { unfold W. change 0%Q with (inject_Z 0). rewrite <- Zle_Qle. exact Hw. }
    assert (1 <= r)%Q as Hr.
    { unfold r. apply Qle_shift_div_l; [exact Hpos | lra]. }
    destruct (Qlt_bool (r * W) (W - 1)) eqn:Hlt; [| reflexivity].
    apply Qlt_bool_iff in Hlt. exfalso.
    assert (0 <= (r - 1) * W)%Q as Hprod
      by (apply Qmult_le_0_compat; lra).
    assert ((r - 1) * W == r * W - W)%Q as Hring by ring.
    rewrite Hring in Hprod. lra.
Qed.

Lemma progressIndicator_stays_on_canvas_witness :
  exists pi,
    progressIndicator true true (controlsAt 10) playbackState = Some pi
    /\ (indicatorLeft pi == 399)%Q.
Proof.
  eexists. split; [reflexivity |].
  destruct (progressIndicator_stays_on_canvas true true (controlsAt 10)
              playbackState _ eq_refl) as [_ [_ [_ Hend]]].
  apply Hend.
  - reflexivity.
  - unfold Qle. simpl. lia.
  - simpl. lia.
Defined.

(** ** Hover tracking *)

Lemma hoverStep_tracked (dom : Dom) (c : Controls) (hovered : bool)
  (e : PointerEvent) :
  isAvailableRecordedAudio c = true ->
  canvasRef dom = true ->
  hoverStep dom c
    {| isRecordedCanvasHovered := hovered;
       canvasListeners := [hoverListener hovered] |} e
  = {| isRecordedCanvasHovered :=
         match e with mouseenter => true | mouseleave => false end;
       canvasListeners :=
         [hoverListener match e with mouseenter => true | mouseleave => false end]
    |}.
Proof.
  intros Ha Hv. unfold hoverStep, hoverEffect, hoverEffectCleanup.
  rewrite Ha, Hv. destruct hovered, e; reflexivity.
Qed.

Lemma hoverSteps_tracked (dom : Dom) (c : Controls) (es : list PointerEvent)
  (hovered : bool) :
  isAvailableRecordedAudio c = true ->
  canvasRef dom = true ->
  fold_left (hoverStep dom c) es
    {| isRecordedCanvasHovered := hovered;
       canvasListeners := [hoverListener hovered] |}
  = {| isRecordedCanvasHovered :=
         fold_left (fun _ e => match e with
                               | mouseenter => true
                               | mouseleave => false
                               end) es hovered;
       canvasListeners :=
         [hoverListener
            (fold_left (fun _ e => match e with
                                   | mouseenter => true
                                   | mouseleave => false
                                   end) es hovered)] |}.
Proof.
  intros Ha Hv. revert hovered.
  induction es as [| e rest IH]; intros hovered.
  - reflexivity.
  - cbn [fold_left]. rewrite (hoverStep_tracked dom c hovered e Ha Hv).
    apply IH.
Qed.

(** X14: the hover flag follows the pointer.  With a recorded audio
    available and the canvas attached, after any run of [mouseenter]
    and [mouseleave] events [isRecordedCanvasHovered] says what the last
    event said, and the canvas carries exactly one listener of the
    effect, the one for the opposite transition: cleanups and setups
    balance.  Without a recorded audio the effect installs nothing and
    the flag stays [false]. *)
Theorem hover_flag_follows_pointer
  (dom : Dom) (c : Controls) (es : list PointerEvent) :
  (isAvailableRecordedAudio c = true ->
   canvasRef dom = true ->
   fold_left (hoverStep dom c) es (hoverMounted dom c)
   = {| isRecordedCanvasHovered := pointerInside es;
        canvasListeners := [hoverListener (pointerInside es)] |})
  /\ (isAvailableRecordedAudio c = false ->
      fold_left (hoverStep dom c) es (hoverMounted dom c)
      = {| isRecordedCanvasHovered := false; canvasListeners := [] |}).
Proof.
  split.
  - intros Ha Hv. unfold hoverMounted, hoverEffect, pointerInside.
    rewrite Ha, Hv. simpl negb. cbv iota.
    apply (hoverSteps_tracked dom c es false Ha Hv).
  - intros Ha. unfold hoverMounted, hoverEffect. rewrite Ha. simpl.
    induction es as [| e rest IH]; [reflexivity |].
    cbn [fold_left].
    assert (hoverStep dom c
              {| isRecordedCanvasHovered := false; canvasListeners := [] |} e
            = {| isRecordedCanvasHovered := false; canvasListeners := [] |})
      as Hstep by (destruct e; reflexivity).
    rewrite Hstep. exact IH.
Qed.

Lemma hover_flag_follows_pointer_witness :
  fold_left (hoverStep dom_800 recordedControls)
    [mouseenter; mouseenter; mouseleave; mouseenter]
    (hoverMounted dom_800 recordedControls)
  = {| isRecordedCanvasHovered := true;
       canvasListeners := [mouseleave_hideTimeIndicator] |}.
Proof.
  destruct (hover_flag_follows_pointer dom_800 recordedControls
              [mouseenter; mouseenter; mouseleave; mouseenter])
    as [Htracked _].
  exact (Htracked eq_refl eq_refl).
Defined.

(** ** The user-agent test *)

(** The scan of [userAgentIsSafari] finds a position of [safari] that
    is reached over consumable heads only, if there is one. *)
Lemma userAgentIsSafari_position (userAgent : list Z) :
  userAgentIsSafari userAgent = true
  <-> exists k : nat,
        startsWithIgnoreCase (codeUnits "safari") (skipn k userAgent) = true
        /\ forall j : nat, (j < k)%nat ->
                           consumable (skipn j userAgent) = true.
Proof.
  induction userAgent as [| c rest IH].
  - split.
    + intros H. discriminate H.
    + intros [k [Hk _]]. rewrite skipn_nil in Hk. discriminate Hk.
  - cbn [userAgentIsSafari]. rewrite orb_true_iff, andb_true_iff, IH.
    split.
    + intros [Hhere | [Hcons [k [Hk Hbefore]]]].
      * exists 0%nat. split; [exact Hhere |]. intros j Hj. lia.
      * exists (S k). split; [exact Hk |].
        intros [| j] Hj; [exact Hcons |]. apply Hbefore. lia.
    + intros [[| k] [Hk Hbefore]].
      * left. exact Hk.
      * right. split.
        -- apply (Hbefore 0%nat). lia.
        -- exists k. split; [exact Hk |].
           intros j Hj. apply (Hbefore (S j)). lia.
Qed.

(** X15: what the test of line 177 accepts.  A user agent counts as
    Safari exactly when [safari] starts, in any letter case, at some
    position [k] of it such that no earlier position starts [chrome] or
    [android] or holds a line terminator. *)
Theorem userAgentIsSafari_iff (userAgent : list Z) :
  userAgentIsSafari userAgent = true
  <-> exists k : nat,
        startsWithIgnoreCase (codeUnits "safari") (skipn k userAgent) = true
        /\ forall j : nat, (j < k)%nat ->
                           consumable (skipn j userAgent) = true.
Proof.
  split; intros H; apply userAgentIsSafari_position; exact H.
Qed.

(** X16: Chrome and Android are not Safari.  If [chrome] or [android]
    starts, in any letter case, at a position of the user agent at or
    before which [safari] does not start, the test fails, whatever
    follows: a later [Safari/537.36] does not make the browser Safari. *)
Theorem chrome_and_android_are_not_safari (head tail : list Z) :
  startsWithIgnoreCase (codeUnits "chrome") tail = true
  \/ startsWithIgnoreCase (codeUnits "android") tail = true ->
  startsWithin (codeUnits "safari") (head ++ tail) (List.length head) = false ->
  userAgentIsSafari (head ++ tail) = false.
Proof.
  intros Hword Hnone.
  destruct (userAgentIsSafari (head ++ tail)) eqn:Htest; [| reflexivity].
  exfalso. apply userAgentIsSafari_position in Htest.
  destruct Htest as [k [Hk Hbefore]].
  destruct (Nat.le_gt_cases k (List.length head)) as [Hle | Hgt].
  - unfold startsWithin in Hnone.
    assert (existsb
              (fun j => startsWithIgnoreCase (codeUnits "safari")
                          (skipn j (head ++ tail)))
              (seq 0 (S (List.length head))) = true) as Hex.
    { apply existsb_exists. exists k. split; [| exact Hk].
      apply in_seq. lia. }
    congruence.
  - specialize (Hbefore (List.length head) Hgt).
    rewrite skipn_app, Nat.sub_diag, skipn_all in Hbefore.
    simpl in Hbefore. unfold consumable in Hbefore.
    destruct tail as [| c tail'].
    + destruct Hword as [H | H]; discriminate H.
    + destruct Hword as [H | H]; rewrite H in Hbefore; simpl in Hbefore.
      * discriminate Hbefore.
      * rewrite andb_false_r in Hbefore. discriminate Hbefore.
Qed.

Lemma chrome_and_android_are_not_safari_witness :
  userAgentIsSafari
    (codeUnits chromeUserAgentHead ++ codeUnits chromeUserAgentTail) = false
  /\ userAgentIsSafari (codeUnits iPhoneUserAgent) = true.
Proof.
  split; [| vm_compute; reflexivity].
  apply chrome_and_android_are_not_safari.
  - left. vm_compute. reflexivity.
  - vm_compute. reflexivity.
Defined.

(** ** The bar pitch *)

Lemma trunc_at_least_one (x : Q) : (1 <= x)%Q -> 1 <= Math.trunc x.
Proof.
  intros Hx. rewrite trunc_nonneg by lra.
  rewrite <- (Qfloor_Z 1). apply Qfloor_resp_le. exact Hx.
Qed.

Lemma trunc_below_one (x : Q) : (0 <= x)%Q -> (x < 1)%Q -> Math.trunc x = 0.
Proof.
  intros H0 H1. rewrite trunc_nonneg by exact H0.
  pose proof (Qfloor_le x) as Hlo. pose proof (Qlt_floor x) as Hhi.
  assert (inject_Z (Qfloor x) < inject_Z 1)%Q as Hlt
    by (change (inject_Z 1) with 1%Q; lra).
  assert (inject_Z 0 < inject_Z (Qfloor x + 1))%Q as Hgt
    by (change (inject_Z 0) with 0%Q; lra).
  rewrite <- Zlt_Qlt in Hlt, Hgt. lia.
Qed.

(** X17: when the pitch is positive.  For a [barWidth] of at least 1 and
    a [gap] that is not negative, the formatted bar width is at least 1
    and the pitch [unit] is at least the bar width, on every screen.  For
    a [barWidth] from 0 up to but not 1 on a screen at least 768 wide,
    the bar width and the pitch are both 0. *)
Theorem unit_positive_from_barWidth_one (p : Props) (st : State) :
  ((1 <= barWidth p)%Q -> (0 <= gap p)%Q ->
   1 <= formattedBarWidth p st /\ formattedBarWidth p st <= unit p st)
  /\ ((0 <= barWidth p)%Q -> (barWidth p < 1)%Q -> 768 <= screenWidth st ->
      formattedBarWidth p st = 0 /\ unit p st = 0).
Proof.
  split.
  - intros Hb Hg.
    assert (0 <= formattedGap p) as Hgap.
    { unfold formattedGap. rewrite trunc_nonneg by exact Hg.
      rewrite <- (Qfloor_Z 0). apply Qfloor_resp_le. exact Hg. }
    assert (1 <= formattedBarWidth p st) as Hw.
    { unfold formattedBarWidth.
      destruct (isMobile st && (0 <? formattedGap p));
        apply trunc_at_least_one; lra. }
    split; [exact Hw |]. unfold unit. nia.
  - intros H0 H1 Hscreen.
    assert (formattedBarWidth p st = 0) as Hw.
    { unfold formattedBarWidth, isMobile.
      assert ((screenWidth st <? 768) = false) as Hm
        by (apply Z.ltb_ge; exact Hscreen).
      rewrite Hm. simpl. apply trunc_below_one; assumption. }
    split; [exact Hw |]. unfold unit. rewrite Hw. lia.
Qed.

Lemma unit_positive_from_barWidth_one_witness :
  1 <= formattedBarWidth defaultProps narrowState
  /\ unit thinBarProps playbackState = 0.
Proof.
  destruct (unit_positive_from_barWidth_one defaultProps narrowState)
    as [Hpos _].
  destruct (unit_positive_from_barWidth_one thinBarProps playbackState)
    as [_ Hzero].
  split.
  - apply Hpos; unfold Qle; simpl; lia.
  - apply Hzero; [unfold Qle; simpl; lia | unfold Qlt; simpl; lia
                  | simpl; lia].
Defined.

(** ** Re-checks on a settled layout *)

Lemma onResize_idempotent (dom : Dom) (p : Props) (st : State) :
  onResize dom p (onResize dom p st) = onResize dom p st.
Proof.
  unfold onResize.
  destruct (canvasContainerRef dom) as [container |];
    destruct (canvasRef dom); reflexivity.
Qed.

Lemma extractionDepsChanged_same (st : State) :
  extractionDepsChanged st st = false.
Proof.
  unfold extractionDepsChanged.
  rewrite !Z.eqb_refl, Bool.eqb_reflx. reflexivity.
Qed.

(** X18: a re-check on a settled layout does nothing.  When the cells
    hold what [onResize] computed for a browser state, a timer of lines
    191-193 that expires on the same browser state changes no cell and
    makes no call: no extraction is started again, and the same holds
    for the debounced recompute. *)
Theorem recheck_on_settled_layout_is_noop
  (h : Handler) (c : Controls) (p : Props) (s : Pipeline) (dom : Dom)
  (st0 : State) :
  cells s = onResize dom p st0 ->
  step h c p s (timeoutElapsed dom) = (s, [])
  /\ (debouncePending s = true ->
      step h c p s (debounceElapsed dom)
      = ({| cells := cells s; debouncePending := false |}, [])).
Proof.
  intros Hcells. destruct s as [st pending]. simpl in Hcells. subst st.
  cbn [step cells debouncePending]. rewrite onResize_idempotent.
  unfold commit. rewrite extractionDepsChanged_same.
  split; [reflexivity |]. intros Hp. rewrite Hp. reflexivity.
Qed.

Lemma recheck_on_settled_layout_is_noop_witness :
  step handleResizeSafari recordedControls defaultProps settledPipeline
    (timeoutElapsed dom_800)
  = (settledPipeline, []).
Proof.
  destruct (recheck_on_settled_layout_is_noop handleResizeSafari
              recordedControls defaultProps settledPipeline dom_800
              (initialState dom_800 defaultProps) eq_refl) as [Htimer _].
  exact Htimer.
Defined.
